(** * Odyssey 360 concierge pipeline: emotion classifier, service router,
      response synthesis, escalation policy and conversation memory.

    Shallow embedding of
      - backend/core/emotion_ai_simple.py   (EmotionAI)
      - backend/core/concierge_ai_simple.py (ConciergeAI)
      - backend/api/concierge.py            (conversation history endpoints)

    Conventions of the embedding.
      - A Python [str] is a [string]: the sequence of its characters (for
        text outside ASCII, of the bytes of its UTF-8 encoding, in which
        an ASCII keyword occurs exactly when it occurs in the text).
        [str.lower] is embedded on the ASCII letters and keeps every other
        character.  Every keyword of the program is lower-case ASCII, so
        the lower-casing of other characters bears on a keyword test only
        for the two characters whose lower case has an ASCII letter
        (U+0130 and U+212A); texts with these are outside the embedding.
      - A Python [float] is a binary64 [float] of the kernel, with the
        IEEE operations the interpreter uses.
      - [datetime.now().isoformat()] is a reading of the clock, passed to
        the function that takes it as an explicit argument.
      - The dictionary [conversation_memory] is a [gmap] from user ids to
        lists of turns, threaded through the functions that update it.
      - A raised exception is a value of [PyExc] on the left of a sum. *)

From Stdlib Require Import Floats ZArith String Ascii List Bool Lia.
From stdpp Require Import gmap strings list.

#[local] Set Warnings "-inexact-float".
#[local] Open Scope string_scope.

(** ** Python primitives used by the program *)

Module Py.

(** [str.lower] on one character. *)
Definition lower_char (c : ascii) : ascii :=
  let n := nat_of_ascii c in
  if (65 <=? n)%nat && (n <=? 90)%nat then ascii_of_nat (n + 32) else c.

(** [s.lower()] *)
Fixpoint lower (s : string) : string :=
  match s with
  | EmptyString => EmptyString
  | String c t => String (lower_char c) (lower t)
  end.

(** [sub in s] on strings: [sub] occurs in [s] as a contiguous run. *)
Fixpoint str_in (sub s : string) : bool :=
  String.prefix sub s
  || match s with
     | EmptyString => false
     | String _ t => str_in sub t
     end.

(** [any(word in s for word in words)] *)
Definition any_in (words : list string) (s : string) : bool :=
  existsb (fun word => str_in word s) words.

(** [l[i:]] for an integer [i] of either sign. *)
Definition slice_from {A} (i : Z) (l : list A) : list A :=
  let n := Z.of_nat (length l) in
  let start := if (i <? 0)%Z then Z.max (n + i) 0 else Z.min i n in
  drop (Z.to_nat start) l.

(** [l[:n]] for a literal [n >= 0]. *)
Definition slice_to {A} (n : nat) (l : list A) : list A := take n l.

(** [min(a, b)] on floats: the first argument unless the second is
    smaller. *)
Definition min (a b : float) : float :=
  if PrimFloat.ltb b a then b else a.

(** [float(n)] for a small non-negative integer. *)
Definition float_of_nat (n : nat) : float :=
  PrimFloat.of_uint63 (Uint63.of_Z (Z.of_nat n)).

(** [max(items, key=...)] over a non-empty sequence of keyed items: the
    first item whose key is maximal. *)
Fixpoint max_by_key {A} (best : A * nat) (items : list (A * nat)) : A * nat :=
  match items with
  | [] => best
  | item :: rest =>
      if (snd best <? snd item)%nat then max_by_key item rest
      else max_by_key best rest
  end.

Inductive PyExc : Type :=
| ValueError (msg : string).

(** [str(e)] for an exception built from one message. *)
Definition str_of_exc (e : PyExc) : string :=
  match e with
  | ValueError msg => msg
  end.

(** [random.choice(seq)]: the element at the index drawn, which is below
    [len(seq)]; [default] is never reached then. *)
Definition choice {A} (draw : nat) (seq : list A) (default : A) : A :=
  nth draw seq default.

(** [str.upper] on one character. *)
Definition upper_char (c : ascii) : ascii :=
  let n := nat_of_ascii c in
  if (97 <=? n)%nat && (n <=? 122)%nat then ascii_of_nat (n - 32) else c.

(** A cased character: a letter. *)
Definition is_cased (c : ascii) : bool :=
  let n := nat_of_ascii c in
  ((65 <=? n)%nat && (n <=? 90)%nat) || ((97 <=? n)%nat && (n <=? 122)%nat).

(** The loop of [s.title()]: a letter is put in upper case when the
    character before it is not a letter, in lower case otherwise. *)
Fixpoint title_from (previous_is_cased : bool) (s : string) : string :=
  match s with
  | EmptyString => EmptyString
  | String c t =>
      if is_cased c
      then String (if previous_is_cased then lower_char c else upper_char c)
                  (title_from true t)
      else String c (title_from false t)
  end.

(** [s.title()] *)
Definition title (s : string) : string := title_from false s.

(** [s.replace(old, new)] for one-character [old] and [new]. *)
Fixpoint replace_char (old new : ascii) (s : string) : string :=
  match s with
  | EmptyString => EmptyString
  | String c t =>
      String (if Ascii.eqb c old then new else c) (replace_char old new t)
  end.

End Py.

(** ** backend/core/emotion_ai_simple.py *)

Module EmotionAI.

Inductive EmotionType : Type :=
| JOY | SADNESS | ANGER | FEAR | SURPRISE | DISGUST | NEUTRAL
| STRESS | EXCITEMENT | CONTENTMENT | ANXIETY | FRUSTRATION.

#[global] Instance EmotionType_eq_dec : EqDecision EmotionType.
Proof. solve_decision. Defined.

Definition EmotionType_value (e : EmotionType) : string :=
  match e with
  | JOY => "joy" | SADNESS => "sadness" | ANGER => "anger" | FEAR => "fear"
  | SURPRISE => "surprise" | DISGUST => "disgust" | NEUTRAL => "neutral"
  | STRESS => "stress" | EXCITEMENT => "excitement"
  | CONTENTMENT => "contentment" | ANXIETY => "anxiety"
  | FRUSTRATION => "frustration"
  end.

Inductive EmotionIntensity : Type :=
| VERY_LOW | LOW | MEDIUM | HIGH | VERY_HIGH.

#[global] Instance EmotionIntensity_eq_dec : EqDecision EmotionIntensity.
Proof. solve_decision. Defined.

Definition EmotionIntensity_value (i : EmotionIntensity) : string :=
  match i with
  | VERY_LOW => "very_low" | LOW => "low" | MEDIUM => "medium"
  | HIGH => "high" | VERY_HIGH => "very_high"
  end.

Record EmotionResult : Type := mkEmotionResult {
  emotion : EmotionType;
  intensity : EmotionIntensity;
  confidence : float;
  context : option string;
  suggestions : list string;
  timestamp : option string
}.

(** [self.emotion_keywords]: a dictionary, in insertion order. *)
Definition emotion_keywords : list (EmotionType * list string) :=
  [ (JOY, ["happy"; "excited"; "great"; "amazing"; "wonderful"; "fantastic"; "love"; "enjoy"]);
    (SADNESS, ["sad"; "depressed"; "down"; "upset"; "disappointed"; "hurt"; "lonely"]);
    (ANGER, ["angry"; "mad"; "furious"; "annoyed"; "irritated"; "frustrated"; "rage"]);
    (FEAR, ["scared"; "afraid"; "worried"; "anxious"; "nervous"; "terrified"; "panic"]);
    (STRESS, ["stressed"; "overwhelmed"; "pressure"; "tense"; "burned out"; "exhausted"]);
    (EXCITEMENT, ["excited"; "thrilled"; "pumped"; "energized"; "enthusiastic"; "eager"]) ].

(** [sum(1 for keyword in keywords if keyword in text_lower)] *)
Definition keyword_score (keywords : list string) (text_lower : string) : nat :=
  length (filter (fun keyword => Py.str_in keyword text_lower = true) keywords).

(** The loop that fills [emotion_scores]: the emotions of positive score,
    in the order of [emotion_keywords]. *)
Fixpoint emotion_scores_of (table : list (EmotionType * list string))
    (text_lower : string) : list (EmotionType * nat) :=
  match table with
  | [] => []
  | (emotion, keywords) :: rest =>
      let score := keyword_score keywords text_lower in
      if (0 <? score)%nat
      then (emotion, score) :: emotion_scores_of rest text_lower
      else emotion_scores_of rest text_lower
  end.

Definition _determine_intensity (confidence : float) (text : option string)
    : EmotionIntensity :=
  if PrimFloat.leb 0.9 confidence then VERY_HIGH
  else if PrimFloat.leb 0.7 confidence then HIGH
  else if PrimFloat.leb 0.5 confidence then MEDIUM
  else if PrimFloat.leb 0.3 confidence then LOW
  else VERY_LOW.

Definition _generate_emotion_suggestions (emotion : EmotionType)
    (intensity : EmotionIntensity) (context : option string) : list string :=
  let suggestions :=
    if bool_decide (emotion = STRESS) || bool_decide (emotion = ANXIETY) then
      [ "Would you like me to dim the lights and play calming music?";
        "I can schedule a spa treatment or meditation session for you.";
        "Would you prefer a quiet room service meal in your room?";
        "I can adjust the room temperature to a more comfortable level." ]
    else if bool_decide (emotion = SADNESS) then
      [ "Would you like me to suggest some uplifting activities?";
        "I can arrange for your favorite comfort food to be delivered.";
        "Would you like to connect with our concierge for local entertainment?";
        "I can adjust the room lighting to be more cheerful." ]
    else if bool_decide (emotion = JOY) || bool_decide (emotion = EXCITEMENT) then
      [ "Would you like me to suggest some exciting local activities?";
        "I can help you plan a special celebration dinner.";
        "Would you like to explore our premium amenities?";
        "I can arrange for a surprise upgrade or special treat." ]
    else if bool_decide (emotion = ANGER) || bool_decide (emotion = FRUSTRATION) then
      [ "I understand you're frustrated. How can I help resolve this?";
        "Would you like me to connect you with our manager?";
        "I can arrange for a quiet space or different room if needed.";
        "Would you like me to suggest some stress-relief activities?" ]
    else [] in
  Py.slice_to 3 suggestions.

(** [detect_text_emotion(text, context)]; [now] is the clock reading
    taken for the timestamp.  No statement of the [try] block raises on
    a string, so the [except] branch is not taken. *)
Definition detect_text_emotion (text : string) (context : option string)
    (now : string) : EmotionResult :=
  let text_lower := Py.lower text in
  let emotion_scores := emotion_scores_of emotion_keywords text_lower in
  let '(detected_emotion, confidence) :=
    match emotion_scores with
    | first :: rest =>
        let '(detected_emotion, score) := Py.max_by_key first rest in
        (detected_emotion,
         Py.min 0.9 (0.5 + (Py.float_of_nat score * 0.1))%float)
    | [] => (NEUTRAL, 0.5%float)
    end in
  let intensity := _determine_intensity confidence (Some text) in
  let suggestions := _generate_emotion_suggestions detected_emotion intensity context in
  {| emotion := detected_emotion;
     intensity := intensity;
     confidence := confidence;
     context := context;
     suggestions := suggestions;
     timestamp := Some now |}.

(** [_default_emotion_result]; [now] is the clock reading. *)
Definition _default_emotion_result (now : string) : EmotionResult :=
  {| emotion := NEUTRAL;
     intensity := MEDIUM;
     confidence := 0.5;
     context := None;
     suggestions := ["How can I assist you today?"];
     timestamp := Some now |}.

(** [detect_audio_emotion(audio_data, sample_rate)].  [draw] is the index
    that [random.choice] drew among the four emotions, [drawn_confidence]
    the outcome of [random.uniform(0.6, 0.9)], [now] the clock reading. *)
Definition detect_audio_emotion (audio_data : string) (sample_rate : Z)
    (draw : nat) (drawn_confidence : float) (now : string) : EmotionResult :=
  let emotions := [JOY; NEUTRAL; STRESS; EXCITEMENT] in
  let detected_emotion := Py.choice draw emotions JOY in
  let confidence := drawn_confidence in
  let intensity := _determine_intensity confidence None in
  let suggestions := _generate_emotion_suggestions detected_emotion intensity (Some "audio") in
  {| emotion := detected_emotion;
     intensity := intensity;
     confidence := confidence;
     context := Some "audio";
     suggestions := suggestions;
     timestamp := Some now |}.

(** [detect_vision_emotion(image_data)].  [draw] is the index that
    [random.choice] drew among the four emotions, [drawn_confidence] the
    outcome of [random.uniform(0.7, 0.95)], [now] the clock reading. *)
Definition detect_vision_emotion (image_data : string)
    (draw : nat) (drawn_confidence : float) (now : string) : EmotionResult :=
  let emotions := [JOY; NEUTRAL; SADNESS; SURPRISE] in
  let detected_emotion := Py.choice draw emotions JOY in
  let confidence := drawn_confidence in
  let intensity := _determine_intensity confidence None in
  let suggestions := _generate_emotion_suggestions detected_emotion intensity (Some "vision") in
  {| emotion := detected_emotion;
     intensity := intensity;
     confidence := confidence;
     context := Some "vision";
     suggestions := suggestions;
     timestamp := Some now |}.

End EmotionAI.


(** ** backend/models/user.py: the columns of [User] the pipeline reads *)

Record User : Type := mkUser {
  id : Z;
  first_name : string;
  preferred_ai_personality : string
}.

(** ** backend/core/concierge_ai_simple.py *)

Module ConciergeAI.
Import EmotionAI.

Inductive ConciergePersonality : Type :=
| PROFESSIONAL | FRIENDLY | ENTHUSIASTIC | CALM | HUMOROUS
| FORMAL | CASUAL | EMPATHETIC | EFFICIENT | CONVERSATIONAL.

#[global] Instance ConciergePersonality_eq_dec : EqDecision ConciergePersonality.
Proof. solve_decision. Defined.

Definition ConciergePersonality_value (p : ConciergePersonality) : string :=
  match p with
  | PROFESSIONAL => "professional" | FRIENDLY => "friendly"
  | ENTHUSIASTIC => "enthusiastic" | CALM => "calm" | HUMOROUS => "humorous"
  | FORMAL => "formal" | CASUAL => "casual" | EMPATHETIC => "empathetic"
  | EFFICIENT => "efficient" | CONVERSATIONAL => "conversational"
  end.

Definition ConciergePersonality_members : list ConciergePersonality :=
  [ PROFESSIONAL; FRIENDLY; ENTHUSIASTIC; CALM; HUMOROUS;
    FORMAL; CASUAL; EMPATHETIC; EFFICIENT; CONVERSATIONAL ].

(** [ConciergePersonality(value)]: the member of that value, or
    [ValueError] when there is none. *)
Definition ConciergePersonality_of_value (value : string)
    : Py.PyExc + ConciergePersonality :=
  match List.find (fun p => String.eqb (ConciergePersonality_value p) value)
                  ConciergePersonality_members with
  | Some p => inr p
  | None => inl (Py.ValueError ("'" ++ value ++ "' is not a valid ConciergePersonality"))
  end.

Inductive ServiceType : Type :=
| ROOM_SERVICE | HOUSEKEEPING | CONCIERGE | DINING | WELLNESS
| TRANSPORTATION | ENTERTAINMENT | BUSINESS | EMERGENCY | GENERAL.

#[global] Instance ServiceType_eq_dec : EqDecision ServiceType.
Proof. solve_decision. Defined.

Definition ServiceType_value (s : ServiceType) : string :=
  match s with
  | ROOM_SERVICE => "room_service" | HOUSEKEEPING => "housekeeping"
  | CONCIERGE => "concierge" | DINING => "dining" | WELLNESS => "wellness"
  | TRANSPORTATION => "transportation" | ENTERTAINMENT => "entertainment"
  | BUSINESS => "business" | EMERGENCY => "emergency" | GENERAL => "general"
  end.

(** One entry of [proactive_actions]: a dictionary with these three keys. *)
Record ProactiveAction : Type := mkAction {
  action : string;
  value : string;
  reason : string
}.

Record ConciergeResponse : Type := mkResponse {
  message : string;
  personality : ConciergePersonality;
  service_type : ServiceType;
  suggestions : list string;
  proactive_actions : list ProactiveAction;
  emotion_detected : option EmotionResult;
  follow_up_questions : list string;
  requires_human : bool
}.

(** One entry of a guest's history: a dictionary with these five keys. *)
Record ConversationTurn : Type := mkTurn {
  turn_timestamp : string;
  user_message : string;
  ai_response : string;
  turn_emotion_detected : option string;
  turn_service_type : string
}.

(** [self.personality_prompts]: six of the ten personalities have one. *)
Definition personality_prompts (p : ConciergePersonality) : option string :=
  match p with
  | PROFESSIONAL => Some "You are a professional, courteous, and efficient AI concierge."
  | FRIENDLY => Some "You are a warm, approachable, and genuinely caring AI concierge."
  | ENTHUSIASTIC => Some "You are an energetic, passionate, and exciting AI concierge."
  | CALM => Some "You are a serene, composed, and soothing AI concierge."
  | HUMOROUS => Some "You are a witty, charming, and light-hearted AI concierge."
  | EMPATHETIC => Some "You are a deeply understanding, compassionate, and emotionally intelligent AI concierge."
  | _ => None
  end.

(** [self.personality_prompts[ConciergePersonality.PROFESSIONAL]] *)
Definition professional_prompt : string :=
  "You are a professional, courteous, and efficient AI concierge.".

Definition _classify_service_type (message : string) : ServiceType :=
  let message_lower := Py.lower message in
  if Py.any_in ["room"; "housekeeping"; "cleaning"; "amenities"; "temperature"; "lighting"] message_lower
  then ROOM_SERVICE
  else if Py.any_in ["food"; "dining"; "restaurant"; "menu"; "dinner"; "lunch"; "breakfast"; "eat"] message_lower
  then DINING
  else if Py.any_in ["spa"; "wellness"; "massage"; "fitness"; "gym"; "relax"; "meditation"; "yoga"] message_lower
  then WELLNESS
  else if Py.any_in ["transport"; "taxi"; "uber"; "airport"; "shuttle"; "car"; "ride"] message_lower
  then TRANSPORTATION
  else if Py.any_in ["entertainment"; "show"; "movie"; "theater"; "concert"; "event"; "fun"] message_lower
  then ENTERTAINMENT
  else if Py.any_in ["business"; "meeting"; "conference"; "work"; "office"; "presentation"] message_lower
  then BUSINESS
  else if Py.any_in ["emergency"; "help"; "urgent"; "problem"; "issue"; "assistance"] message_lower
  then EMERGENCY
  else GENERAL.

(** The greeting chosen at the head of [_generate_template_response]. *)
Definition greeting_of (personality : ConciergePersonality) (guest_name : string)
    : string :=
  if bool_decide (personality = FRIENDLY) then
    "Hi " ++ guest_name ++ "! I'm so happy to help you today! 😊"
  else if bool_decide (personality = PROFESSIONAL) then
    "Good day, " ++ guest_name ++ ". How may I assist you today?"
  else if bool_decide (personality = ENTHUSIASTIC) then
    "Hello " ++ guest_name ++ "! I'm excited to help make your stay amazing! ✨"
  else if bool_decide (personality = CALM) then
    "Hello " ++ guest_name ++ ". I'm here to help you feel comfortable and relaxed."
  else if bool_decide (personality = HUMOROUS) then
    "Hey there, " ++ guest_name ++ "! Ready to have some fun? Let me know what you need! 😄"
  else if bool_decide (personality = EMPATHETIC) then
    "Hello " ++ guest_name ++ ". I'm here to listen and help however I can."
  else
    "Hello " ++ guest_name ++ ". How can I assist you today?".

(** The dictionary [service_responses]; HOUSEKEEPING has no entry. *)
Definition service_responses (s : ServiceType) : option string :=
  match s with
  | ROOM_SERVICE => Some "I'd be delighted to help with your room needs! I can assist with housekeeping, room service, temperature control, or any amenities you might need."
  | DINING => Some "I'd love to help you discover amazing dining experiences! I can recommend restaurants, make reservations, or help with special dietary needs."
  | WELLNESS => Some "I'm here to support your wellness journey! I can help with spa bookings, fitness activities, or any relaxation needs you have."
  | CONCIERGE => Some "I'm excited to help make your stay memorable! I can recommend local attractions, arrange transportation, or coordinate special experiences."
  | TRANSPORTATION => Some "I'd be happy to help with your transportation needs! I can arrange airport transfers, local rides, or provide transportation information."
  | ENTERTAINMENT => Some "Let me help you find some great entertainment! I can suggest shows, events, or activities that match your interests."
  | BUSINESS => Some "I'm here to support your business needs! I can help with meeting arrangements, business services, or work-related requests."
  | EMERGENCY => Some "I understand this is urgent. Let me help you immediately. What specific assistance do you need right now?"
  | GENERAL => Some "I'm here to help with whatever you need! Feel free to ask me anything about your stay or our services."
  | HOUSEKEEPING => None
  end.

Definition general_response : string :=
  "I'm here to help with whatever you need! Feel free to ask me anything about your stay or our services.".

(** [emotion_result.emotion in [...]], false when there is no result. *)
Definition emotion_in (emotion_result : option EmotionResult)
    (emotions : list EmotionType) : bool :=
  match emotion_result with
  | Some r => bool_decide (emotion r ∈ emotions)
  | None => false
  end.

Definition _generate_template_response (message : string)
    (personality : ConciergePersonality) (service_type : ServiceType)
    (emotion_result : option EmotionResult) (user : User) : string :=
  let guest_name := first_name user in
  let greeting := greeting_of personality guest_name in
  let service_response := default general_response (service_responses service_type) in
  let emotion_response :=
    if emotion_in emotion_result [STRESS; ANXIETY] then
      " I can sense you might be feeling a bit stressed. Let me help make things easier for you."
    else if emotion_in emotion_result [SADNESS] then
      " I want to make sure you're comfortable and happy during your stay. How can I help brighten your day?"
    else if emotion_in emotion_result [JOY; EXCITEMENT] then
      " I love your positive energy! Let's make your stay even more amazing!"
    else "" in
  greeting ++ " " ++ service_response ++ emotion_response.

Definition _generate_proactive_actions (emotion_result : option EmotionResult)
    (service_type : ServiceType) (user : User) : list ProactiveAction :=
  match emotion_result with
  | Some r =>
      if bool_decide (emotion r ∈ [STRESS; ANXIETY]) then
        [ mkAction "adjust_lighting" "dim" "Create calming atmosphere";
          mkAction "suggest_wellness" "spa_treatment" "Help reduce stress";
          mkAction "adjust_temperature" "comfortable" "Optimize comfort" ]
      else if bool_decide (emotion r = SADNESS) then
        [ mkAction "suggest_entertainment" "uplifting_activity" "Boost mood";
          mkAction "offer_comfort_food" "favorite_dish" "Provide comfort" ]
      else if bool_decide (emotion r ∈ [JOY; EXCITEMENT]) then
        [ mkAction "suggest_premium_services" "upgrade_options" "Enhance positive experience";
          mkAction "recommend_activities" "exciting_experiences" "Maintain positive energy" ]
      else []
  | None => []
  end.

Definition _generate_follow_up_questions (service_type : ServiceType)
    (emotion_result : option EmotionResult) : list string :=
  let questions :=
    if bool_decide (service_type = ROOM_SERVICE) then
      [ "Would you like me to schedule housekeeping for a specific time?";
        "Is there anything specific you'd like me to arrange for your room?";
        "Would you like me to adjust any room settings for you?" ]
    else if bool_decide (service_type = DINING) then
      [ "Do you have any dietary restrictions or preferences?";
        "What type of cuisine are you in the mood for?";
        "Would you like me to make a reservation for you?" ]
    else if bool_decide (service_type = WELLNESS) then
      [ "What type of wellness experience are you looking for?";
        "Do you have any specific health goals or preferences?";
        "Would you like me to check availability for spa services?" ]
    else [] in
  Py.slice_to 2 questions.

Definition complex_keywords : list string :=
  ["complaint"; "refund"; "manager"; "supervisor"; "legal"; "medical"].

Definition _requires_human_intervention (message : string)
    (emotion_result : option EmotionResult) (service_type : ServiceType) : bool :=
  if bool_decide (service_type = EMERGENCY) then true
  else if
    match emotion_result with
    | Some r =>
        bool_decide (EmotionIntensity_value (intensity r) ∈ ["high"; "very_high"])
        && bool_decide (emotion r ∈ [ANGER; FRUSTRATION])
    | None => false
    end
  then true
  else if Py.any_in complex_keywords (Py.lower message) then true
  else false.

(** [self.personality_prompts.get(personality, self.personality_prompts[PROFESSIONAL])] *)
Definition personality_prompt_of (personality : ConciergePersonality) : string :=
  default professional_prompt (personality_prompts personality).

(** [_generate_response].  The prompt it looks up does not reach the
    response it builds; neither does the service template, whose lookup
    is left out. *)
Definition _generate_response (message : string) (user : User)
    (personality : ConciergePersonality) (service_type : ServiceType)
    (emotion_result : option EmotionResult)
    (context : option (gmap string string)) : ConciergeResponse :=
  let personality_prompt := personality_prompt_of personality in
  let response_text :=
    _generate_template_response message personality service_type emotion_result user in
  let proactive_actions := _generate_proactive_actions emotion_result service_type user in
  let follow_up_questions := _generate_follow_up_questions service_type emotion_result in
  let requires_human := _requires_human_intervention message emotion_result service_type in
  {| message := response_text;
     personality := personality;
     service_type := service_type;
     suggestions :=
       match emotion_result with
       | Some r => EmotionAI.suggestions r
       | None => []
       end;
     proactive_actions := proactive_actions;
     emotion_detected := emotion_result;
     follow_up_questions := follow_up_questions;
     requires_human := requires_human |}.

(** The dictionary that [_update_conversation_memory] appends; [now] is
    the clock reading taken for its timestamp. *)
Definition conversation_turn (msg : string) (response : ConciergeResponse)
    (now : string) : ConversationTurn :=
  {| turn_timestamp := now;
     user_message := msg;
     ai_response := message response;
     turn_emotion_detected :=
       match emotion_detected response with
       | Some r => Some (EmotionType_value (emotion r))
       | None => None
       end;
     turn_service_type := ServiceType_value (service_type response) |}.

(** [_update_conversation_memory] *)
Definition _update_conversation_memory (user_id : Z) (msg : string)
    (response : ConciergeResponse) (now : string)
    (conversation_memory : gmap Z (list ConversationTurn))
    : gmap Z (list ConversationTurn) :=
  let memory1 :=
    match conversation_memory !! user_id with
    | None => <[user_id := []]> conversation_memory
    | Some _ => conversation_memory
    end in
  let turn := conversation_turn msg response now in
  let appended := (default [] (memory1 !! user_id) ++ [turn])%list in
  let memory2 := <[user_id := appended]> memory1 in
  if (20 <? length appended)%nat
  then <[user_id := Py.slice_from (-20) appended]> memory2
  else memory2.

(** [process_guest_message]: the result, or the exception it lets
    through, together with the conversation memory afterwards.  The two
    clock readings are those of the emotion result and of the turn. *)
Definition process_guest_message (msg : string) (user : User)
    (context : option (gmap string string)) (now_emotion now_turn : string)
    (conversation_memory : gmap Z (list ConversationTurn))
    : (Py.PyExc + ConciergeResponse) * gmap Z (list ConversationTurn) :=
  let emotion_result :=
    detect_text_emotion msg
      (match context with
       | Some c => c !! "conversation_context"
       | None => None
       end) now_emotion in
  let service_type := _classify_service_type msg in
  match ConciergePersonality_of_value (preferred_ai_personality user) with
  | inl exc => (inl exc, conversation_memory)
  | inr personality =>
      let response :=
        _generate_response msg user personality service_type (Some emotion_result) context in
      (inr response,
       _update_conversation_memory (id user) msg response now_turn conversation_memory)
  end.

End ConciergeAI.

(** ** backend/api/concierge.py: the conversation history endpoints *)

Module ConciergeApi.
Import ConciergeAI.

(** [get_conversation_history]: the fields [conversation_history] and
    [total_messages] of the reply. *)
Definition get_conversation_history (limit : Z) (current_user : User)
    (conversation_memory : gmap Z (list ConversationTurn))
    : list ConversationTurn * nat :=
  let history := default [] (conversation_memory !! id current_user) in
  let recent_history :=
    if (limit <? Z.of_nat (length history))%Z
    then Py.slice_from (- limit) history
    else history in
  (recent_history, length history).

(** [clear_conversation_history] *)
Definition clear_conversation_history (current_user : User)
    (conversation_memory : gmap Z (list ConversationTurn))
    : gmap Z (list ConversationTurn) :=
  match conversation_memory !! id current_user with
  | Some _ => delete (id current_user) conversation_memory
  | None => conversation_memory
  end.

Import EmotionAI ConciergeAI.

(** [HTTPException(status_code=..., detail=...)] *)
Record HTTPException : Type := mkHTTPException {
  status_code : Z;
  detail : string
}.

(** The dictionary under "emotion_detected" in a chat reply. *)
Record EmotionSummary : Type := mkEmotionSummary {
  summary_emotion : string;
  summary_intensity : string;
  summary_confidence : float
}.

(** The dictionary under "response" in a chat reply. *)
Record ChatReply : Type := mkChatReply {
  reply_message : string;
  reply_personality : string;
  reply_service_type : string;
  reply_suggestions : list string;
  reply_proactive_actions : list ProactiveAction;
  reply_emotion_detected : option EmotionSummary;
  reply_follow_up_questions : list string;
  reply_requires_human : bool;
  reply_timestamp : string
}.

(** The emotion entry that the three chat endpoints build from an emotion
    result. *)
Definition emotion_summary (r : EmotionResult) : EmotionSummary :=
  {| summary_emotion := EmotionType_value (emotion r);
     summary_intensity := EmotionIntensity_value (intensity r);
     summary_confidence := confidence r |}.

(** The reply that the three chat endpoints build from the response of the
    pipeline, the emotion entry apart. *)
Definition chat_reply (response : ConciergeResponse)
    (emotion_entry : option EmotionSummary) (now : string) : ChatReply :=
  {| reply_message := message response;
     reply_personality := ConciergePersonality_value (personality response);
     reply_service_type := ServiceType_value (service_type response);
     reply_suggestions := suggestions response;
     reply_proactive_actions := proactive_actions response;
     reply_emotion_detected := emotion_entry;
     reply_follow_up_questions := follow_up_questions response;
     reply_requires_human := requires_human response;
     reply_timestamp := now |}.

(** [chat_with_concierge]: the reply or the HTTP error, and the memory
    afterwards.  The clock readings are those of the emotion result, of
    the recorded turn and of the reply. *)
Definition chat_with_concierge (msg : string)
    (context : option (gmap string string)) (current_user : User)
    (now_emotion now_turn now_reply : string)
    (conversation_memory : gmap Z (list ConversationTurn))
    : (HTTPException + ChatReply) * gmap Z (list ConversationTurn) :=
  match process_guest_message msg current_user (Some (default ∅ context))
          now_emotion now_turn conversation_memory with
  | (inr response, memory) =>
      (inr (chat_reply response
              (match emotion_detected response with
               | Some r => Some (emotion_summary r)
               | None => None
               end) now_reply),
       memory)
  | (inl e, memory) =>
      (inl (mkHTTPException 500
              ("Error processing concierge request: " ++ Py.str_of_exc e)),
       memory)
  end.

(** [chat_with_concierge_voice]; [audio_data] is what was read from the
    uploaded file, [draw] and [drawn_confidence] the random outcomes of the
    audio detection, [now_audio] its clock reading. *)
Definition chat_with_concierge_voice (audio_data : string)
    (context : option (gmap string string)) (current_user : User)
    (draw : nat) (drawn_confidence : float)
    (now_audio now_emotion now_turn now_reply : string)
    (conversation_memory : gmap Z (list ConversationTurn))
    : (HTTPException + ChatReply) * gmap Z (list ConversationTurn) :=
  let emotion_result :=
    detect_audio_emotion audio_data 16000 draw drawn_confidence now_audio in
  let simulated_message :=
    "I'd like to order room service and get some recommendations for local dining." in
  match process_guest_message simulated_message current_user
          (Some (default ∅ context)) now_emotion now_turn conversation_memory with
  | (inr response, memory) =>
      (inr (chat_reply response (Some (emotion_summary emotion_result)) now_reply),
       memory)
  | (inl e, memory) =>
      (inl (mkHTTPException 500
              ("Error processing voice request: " ++ Py.str_of_exc e)),
       memory)
  end.

(** [chat_with_concierge_video], with the random outcomes and the clock
    reading of the vision detection. *)
Definition chat_with_concierge_video (video_data : string)
    (context : option (gmap string string)) (current_user : User)
    (draw : nat) (drawn_confidence : float)
    (now_vision now_emotion now_turn now_reply : string)
    (conversation_memory : gmap Z (list ConversationTurn))
    : (HTTPException + ChatReply) * gmap Z (list ConversationTurn) :=
  let emotion_result :=
    detect_vision_emotion video_data draw drawn_confidence now_vision in
  let simulated_message :=
    "I'm looking for some relaxation activities and wellness services." in
  match process_guest_message simulated_message current_user
          (Some (default ∅ context)) now_emotion now_turn conversation_memory with
  | (inr response, memory) =>
      (inr (chat_reply response (Some (emotion_summary emotion_result)) now_reply),
       memory)
  | (inl e, memory) =>
      (inl (mkHTTPException 500
              ("Error processing video request: " ++ Py.str_of_exc e)),
       memory)
  end.

(** One entry of the lists served by the listing endpoints. *)
Record ListedItem : Type := mkListedItem {
  item_id : string;
  item_name : string;
  item_description : string
}.

(** [get_available_personalities]: the list under "personalities". *)
Definition get_available_personalities : list ListedItem :=
  map (fun p =>
         {| item_id := ConciergePersonality_value p;
            item_name := Py.title (ConciergePersonality_value p);
            item_description :=
              "AI concierge with " ++ ConciergePersonality_value p ++ " personality" |})
      ConciergePersonality_members.

(** [for service_type in ServiceType] *)
Definition ServiceType_iter : list ServiceType :=
  [ ROOM_SERVICE; HOUSEKEEPING; CONCIERGE; DINING; WELLNESS;
    TRANSPORTATION; ENTERTAINMENT; BUSINESS; EMERGENCY; GENERAL ].

(** [get_available_service_types]: the list under "service_types". *)
Definition get_available_service_types : list ListedItem :=
  map (fun service_type =>
         {| item_id := ServiceType_value service_type;
            item_name :=
              Py.title (Py.replace_char "_" " " (ServiceType_value service_type));
            item_description :=
              "Services related to "
              ++ Py.replace_char "_" " " (ServiceType_value service_type) |})
      ServiceType_iter.

(** [get_concierge_status]: the list under "available_personalities". *)
Definition available_personalities : list string :=
  map ConciergePersonality_value ConciergePersonality_members.

End ConciergeApi.

(** ** backend/api/emotion.py: the listing endpoints *)

Module EmotionApi.
Import EmotionAI ConciergeApi.

(** [for emotion in EmotionType] *)
Definition EmotionType_iter : list EmotionType :=
  [ JOY; SADNESS; ANGER; FEAR; SURPRISE; DISGUST; NEUTRAL;
    STRESS; EXCITEMENT; CONTENTMENT; ANXIETY; FRUSTRATION ].

(** [for intensity in EmotionIntensity] *)
Definition EmotionIntensity_iter : list EmotionIntensity :=
  [ VERY_LOW; LOW; MEDIUM; HIGH; VERY_HIGH ].

(** [get_available_emotions]: the list under "emotions". *)
Definition get_available_emotions : list ListedItem :=
  map (fun emotion =>
         {| item_id := EmotionType_value emotion;
            item_name := Py.title (EmotionType_value emotion);
            item_description := "Emotion type: " ++ EmotionType_value emotion |})
      EmotionType_iter.

(** [get_available_intensities]: the list under "intensities". *)
Definition get_available_intensities : list ListedItem :=
  map (fun intensity =>
         {| item_id := EmotionIntensity_value intensity;
            item_name :=
              Py.title (Py.replace_char "_" " " (EmotionIntensity_value intensity));
            item_description :=
              "Intensity level: " ++ EmotionIntensity_value intensity |})
      EmotionIntensity_iter.

End EmotionApi.

(** ** backend/core/security.py *)

Module Security.

(** [get_current_user], after [verify_token] has accepted the credentials:
    the demo user built around the subject [user_id] of the token. *)
Definition get_current_user (user_id : Z) : User :=
  {| id := user_id;
     first_name := "John";
     preferred_ai_personality := "friendly" |}.

End Security.

Import EmotionAI ConciergeAI ConciergeApi.

(** ** Specification vocabulary *)

(** [kw] occurs in [text] up to the case of letters: some contiguous run
    of [text] lower-cases to the same string as [kw]. *)
Definition contains_ignoring_case (kw text : string) : Prop :=
  exists pre run post,
    text = pre ++ run ++ post /\ Py.lower run = Py.lower kw.

(** Some keyword of the set occurs in the text, up to case. *)
Definition keyword_match (keywords : list string) (text : string) : Prop :=
  exists kw, kw ∈ keywords /\ contains_ignoring_case kw text.


(** The precedence list of the router, top to bottom, each category with
    its keyword set. *)
Definition service_precedence : list (ServiceType * list string) :=
  [ (ROOM_SERVICE, ["room"; "housekeeping"; "cleaning"; "amenities"; "temperature"; "lighting"]);
    (DINING, ["food"; "dining"; "restaurant"; "menu"; "dinner"; "lunch"; "breakfast"; "eat"]);
    (WELLNESS, ["spa"; "wellness"; "massage"; "fitness"; "gym"; "relax"; "meditation"; "yoga"]);
    (TRANSPORTATION, ["transport"; "taxi"; "uber"; "airport"; "shuttle"; "car"; "ride"]);
    (ENTERTAINMENT, ["entertainment"; "show"; "movie"; "theater"; "concert"; "event"; "fun"]);
    (BUSINESS, ["business"; "meeting"; "conference"; "work"; "office"; "presentation"]);
    (EMERGENCY, ["emergency"; "help"; "urgent"; "problem"; "issue"; "assistance"]) ].


(** The stored history of a guest; a guest without an entry has none. *)
Definition history_of (guest_id : Z)
    (conversation_memory : gmap Z (list ConversationTurn)) : list ConversationTurn :=
  default [] (conversation_memory !! guest_id).

(** The operations that change the conversation memory: the append made
    at the end of [process_guest_message], and the clear endpoint. *)
Inductive MemoryOp : Type :=
| Append (user_id : Z) (msg : string) (response : ConciergeResponse) (now : string)
| Clear (current_user : User).

Definition apply_op (conversation_memory : gmap Z (list ConversationTurn))
    (op : MemoryOp) : gmap Z (list ConversationTurn) :=
  match op with
  | Append user_id msg response now =>
      _update_conversation_memory user_id msg response now conversation_memory
  | Clear current_user => clear_conversation_history current_user conversation_memory
  end.

Definition run_ops (ops : list MemoryOp)
    (conversation_memory : gmap Z (list ConversationTurn))
    : gmap Z (list ConversationTurn) :=
  fold_left apply_op ops conversation_memory.

(** The turns appended for a guest, oldest first, since that guest's
    history was last cleared; [acc] holds those appended before [ops]. *)
Fixpoint appended_turns (guest_id : Z) (ops : list MemoryOp)
    (acc : list ConversationTurn) : list ConversationTurn :=
  match ops with
  | [] => acc
  | Append user_id msg response now :: rest =>
      appended_turns guest_id rest
        (if bool_decide (user_id = guest_id)
         then (acc ++ [conversation_turn msg response now])%list
         else acc)
  | Clear current_user :: rest =>
      appended_turns guest_id rest
        (if bool_decide (id current_user = guest_id) then [] else acc)
  end.

(** The last [n] elements of a list, in order. *)
Definition lastn {A} (n : nat) (l : list A) : list A :=
  drop (length l - n) l.

(** [n] is the number of distinct keywords of the set that occur in the
    text, up to case. *)
Definition distinct_matches (keywords : list string) (text : string) (n : nat) : Prop :=
  exists matched : list string,
    NoDup matched
    /\ (forall kw, kw ∈ matched <-> kw ∈ keywords /\ contains_ignoring_case kw text)
    /\ length matched = n.

(** The confidence formula of the specification for a matched emotion. *)
Definition confidence_of_score (score : nat) : float :=
  Py.min 0.9 (0.5 + 0.1 * Py.float_of_nat score)%float.

(** The test of [_requires_human_intervention] on the emotion result. *)
Definition negative_emotion_test (emotion_result : option EmotionResult) : bool :=
  match emotion_result with
  | Some r =>
      bool_decide (EmotionIntensity_value (intensity r) ∈ ["high"; "very_high"])
      && bool_decide (emotion r ∈ [ANGER; FRUSTRATION])
  | None => false
  end.

(** Scenario C: 25 turns appended for one guest, retrieved with limit 25. *)
Definition scenario_guest : User :=
  {| id := 1; first_name := "Grace"; preferred_ai_personality := "friendly" |}.

Definition scenario_response : ConciergeResponse :=
  {| message := "reply"; personality := FRIENDLY; service_type := GENERAL;
     suggestions := []; proactive_actions := []; emotion_detected := None;
     follow_up_questions := []; requires_human := false |}.

Definition scenario_ops : list MemoryOp :=
  map (fun n => Append 1 (String (ascii_of_nat (65 + n)) "") scenario_response "now")
      (seq 0 25).

(** Scenario A of the specification. *)
Definition scenario_a_message : string :=
  "I am so stressed about tomorrow's meeting".


(** The personalities without a branch in the greeting chain and without
    a prompt. *)
Definition unmapped_personalities : list ConciergePersonality :=
  [FORMAL; CASUAL; EFFICIENT; CONVERSATIONAL].


(** The position of an intensity on its scale, VERY_LOW lowest. *)
Definition intensity_rank (i : EmotionIntensity) : nat :=
  match i with
  | VERY_LOW => 0 | LOW => 1 | MEDIUM => 2 | HIGH => 3 | VERY_HIGH => 4
  end.

(** The place of a category in the router's precedence list; GENERAL,
    the default, comes last.  HOUSEKEEPING and CONCIERGE are not in the
    list. *)
Definition service_rank (s : ServiceType) : nat :=
  match s with
  | ROOM_SERVICE => 0 | DINING => 1 | WELLNESS => 2 | TRANSPORTATION => 3
  | ENTERTAINMENT => 4 | BUSINESS => 5 | EMERGENCY => 6
  | GENERAL | HOUSEKEEPING | CONCIERGE => 7
  end.

(** ** Facts about strings and the Python primitives *)

(** Case analysis on a membership [H : x ∈ [a; b; ...]] in a literal list. *)
Ltac elem_cases H :=
  repeat (apply elem_of_cons in H as [H | H]);
  try (apply elem_of_nil in H; contradiction).

Section StringFacts.

Lemma append_nil (b : string) : "" ++ b = b.
Proof. reflexivity. Qed.

Lemma append_cons (c : ascii) (a b : string) :
  String c a ++ b = String c (a ++ b).
Proof. reflexivity. Qed.

Lemma append_assoc (a b c : string) : (a ++ b) ++ c = a ++ (b ++ c).
Proof.
  induction a as [|x a IH]; [reflexivity |].
  now rewrite !append_cons, IH.
Qed.

Lemma prefix_iff (a s : string) :
  String.prefix a s = true <-> exists b, s = a ++ b.
Proof.
  revert s. induction a as [|x a IH]; intros s.
  - destruct s; simpl; split; eauto.
  - destruct s as [|y s]; simpl.
    + split; [discriminate | intros [b Hb]; discriminate].
    + destruct (ascii_dec x y) as [->|Hne].
      * rewrite IH. split; intros [b Hb]; exists b.
        -- rewrite append_cons. congruence.
        -- rewrite append_cons in Hb. congruence.
      * split; [discriminate |].
        intros [b Hb]. rewrite append_cons in Hb. congruence.
Qed.

Lemma str_in_iff (sub s : string) :
  Py.str_in sub s = true <-> exists a b, s = a ++ sub ++ b.
Proof.
  induction s as [|c s IH].
  - change (Py.str_in sub "") with (String.prefix sub "" || false).
    rewrite orb_false_r, prefix_iff. split.
    + intros [b Hb]. exists "", b. exact Hb.
    + intros [a [b Hb]]. destruct a; [eauto | discriminate].
  - change (Py.str_in sub (String c s))
      with (String.prefix sub (String c s) || Py.str_in sub s).
    rewrite orb_true_iff, prefix_iff, IH. split.
    + intros [[b Hb] | [a [b Hb]]].
      * exists "", b. exact Hb.
      * exists (String c a), b. rewrite append_cons. now rewrite Hb.
    + intros [a [b Hb]]. destruct a as [|x a].
      * left. eauto.
      * right. exists a, b. rewrite append_cons in Hb. congruence.
Qed.

Lemma lower_append (a b : string) :
  Py.lower (a ++ b) = Py.lower a ++ Py.lower b.
Proof.
  induction a as [|x a IH]; [reflexivity |].
  rewrite append_cons. simpl. now rewrite IH, append_cons.
Qed.

(** A split of the lower-cased text is the image of a split of the text. *)
Lemma lower_split (s a b : string) :
  Py.lower s = a ++ b ->
  exists a' b', s = a' ++ b' /\ Py.lower a' = a /\ Py.lower b' = b.
Proof.
  revert s. induction a as [|x a IH]; intros s H.
  - exists "", s. auto.
  - rewrite append_cons in H.
    destruct s as [|y s]; simpl in H; [discriminate |].
    injection H as Hx Hs. destruct (IH _ Hs) as [a' [b' [-> [Ha Hb]]]].
    exists (String y a'), b'. simpl. rewrite Ha, Hx. auto.
Qed.

(** The substring test on the lower-cased text is the match up to case. *)
Lemma str_in_lower_iff (kw text : string) :
  Py.lower kw = kw ->
  Py.str_in kw (Py.lower text) = true <-> contains_ignoring_case kw text.
Proof.
  intros Hkw. rewrite str_in_iff. unfold contains_ignoring_case. split.
  - intros [a [b H]].
    destruct (lower_split _ _ _ H) as [pre [rest [-> [Hpre Hrest]]]].
    destruct (lower_split _ _ _ Hrest) as [run [post [-> [Hrun Hpost]]]].
    exists pre, run, post. split; [reflexivity | congruence].
  - intros [pre [run [post [-> Hrun]]]].
    exists (Py.lower pre), (Py.lower post).
    rewrite !lower_append. congruence.
Qed.

Lemma any_in_iff (keywords : list string) (s : string) :
  Py.any_in keywords s = true <->
  exists kw, kw ∈ keywords /\ Py.str_in kw s = true.
Proof.
  unfold Py.any_in. rewrite existsb_exists.
  split; intros [kw [Hin H]]; exists kw; split; auto;
    now apply list_elem_of_In.
Qed.

Lemma any_in_lower_iff (keywords : list string) (text : string) :
  Forall (fun kw => Py.lower kw = kw) keywords ->
  Py.any_in keywords (Py.lower text) = true <-> keyword_match keywords text.
Proof.
  intros Hlow. unfold keyword_match. rewrite any_in_iff.
  rewrite Forall_forall in Hlow.
  split; intros [kw [Hin H]]; exists kw; split; auto;
    apply (str_in_lower_iff kw text (Hlow kw Hin)); exact H.
Qed.

End StringFacts.

(** ** The service router *)

Section Router.


Lemma service_keywords_lower :
  Forall (fun entry => Forall (fun kw => Py.lower kw = kw) (snd entry))
         service_precedence.
Proof. repeat constructor. Qed.



Lemma precedence_entry_matches (entry : ServiceType * list string) (text : string) :
  entry ∈ service_precedence ->
  Py.any_in (snd entry) (Py.lower text) = true <-> keyword_match (snd entry) text.
Proof.
  intros Hin. apply any_in_lower_iff.
  pose proof service_keywords_lower as H.
  rewrite Forall_forall in H. now apply H.
Qed.


End Router.



(** ** The escalation policy *)

Section Escalation.

Lemma negative_emotion_test_iff (emotion_result : option EmotionResult) :
  negative_emotion_test emotion_result = true <->
  exists r, emotion_result = Some r
            /\ (intensity r = HIGH \/ intensity r = VERY_HIGH)
            /\ (emotion r = ANGER \/ emotion r = FRUSTRATION).
Proof.
  destruct emotion_result as [r|]; simpl.
  - split.
    + intros H. exists r. split; [reflexivity |].
      destruct (intensity r), (emotion r); vm_compute in H; try discriminate; tauto.
    + intros [r' [Hr [Hi He]]]. injection Hr as <-.
      destruct Hi as [-> | ->], He as [-> | ->]; reflexivity.
  - split; [discriminate | intros [r [Hr _]]; discriminate].
Qed.

Lemma requires_human_unfold (msg : string)
    (emotion_result : option EmotionResult) (service : ServiceType) :
  _requires_human_intervention msg emotion_result service =
  bool_decide (service = EMERGENCY)
  || negative_emotion_test emotion_result
  || Py.any_in complex_keywords (Py.lower msg).
Proof.
  unfold _requires_human_intervention, negative_emotion_test.
  destruct (bool_decide (service = EMERGENCY)); [reflexivity |].
  destruct emotion_result as [r|]; simpl;
    repeat match goal with |- context [if ?b then _ else _] => destruct b end;
    reflexivity.
Qed.

End Escalation.

(** C2.  [_requires_human_intervention] answers true exactly when one of
    the three rules holds: the service category is EMERGENCY; or there is
    an emotion result of intensity HIGH or VERY_HIGH whose emotion is ANGER
    or FRUSTRATION; or the message contains, up to case, one of the
    keywords complaint, refund, manager, supervisor, legal, medical.  With
    the category EMERGENCY the answer is true for every message and emotion
    result.  The function is total: it has an answer on every input. *)
Theorem requires_human_iff_rules (msg : string)
    (emotion_result : option EmotionResult) (service : ServiceType) :
  (_requires_human_intervention msg emotion_result service = true <->
     service = EMERGENCY
     \/ (exists r, emotion_result = Some r
                   /\ (intensity r = HIGH \/ intensity r = VERY_HIGH)
                   /\ (emotion r = ANGER \/ emotion r = FRUSTRATION))
     \/ (exists kw,
           kw ∈ ["complaint"; "refund"; "manager"; "supervisor"; "legal"; "medical"]
           /\ contains_ignoring_case kw msg))
  /\ (service = EMERGENCY ->
      _requires_human_intervention msg emotion_result service = true)
  /\ (exists answer : bool,
        _requires_human_intervention msg emotion_result service = answer).
Proof.
  assert (Hkw : Py.any_in complex_keywords (Py.lower msg) = true <->
                keyword_match complex_keywords msg)
    by (apply any_in_lower_iff; repeat constructor).
  split; [| split].
  - rewrite requires_human_unfold, !orb_true_iff, bool_decide_eq_true.
    rewrite negative_emotion_test_iff, Hkw. unfold keyword_match, complex_keywords.
    tauto.
  - intros ->. reflexivity.
  - eexists. reflexivity.
Qed.

Lemma requires_human_iff_rules_witness :
  _requires_human_intervention "hello" None EMERGENCY = true.
Proof.
  apply (requires_human_iff_rules "hello" None EMERGENCY). reflexivity.
Defined.

(** ** The conversation memory *)

Section Memory.

Lemma slice_from_neg {A} (n : nat) (l : list A) :
  (0 < n)%nat -> Py.slice_from (- Z.of_nat n) l = lastn n l.
Proof.
  intros Hn. unfold Py.slice_from, lastn.
  destruct (Z.ltb_spec (- Z.of_nat n) 0) as [_ | H]; [| lia].
  f_equal. lia.
Qed.

Lemma slice_from_zero {A} (l : list A) : Py.slice_from (- 0) l = l.
Proof.
  unfold Py.slice_from. change (- 0)%Z with 0%Z. simpl.
  rewrite Z.min_l by lia. reflexivity.
Qed.

Lemma lastn_short {A} (n : nat) (l : list A) :
  (length l <= n)%nat -> lastn n l = l.
Proof. intros H. unfold lastn. now replace (length l - n)%nat with 0%nat by lia. Qed.

Lemma length_lastn {A} (n : nat) (l : list A) :
  length (lastn n l) = Nat.min n (length l).
Proof. unfold lastn. rewrite length_drop. lia. Qed.

(** Appending to the retained suffix and cutting again is cutting the
    whole sequence: eviction is from the front. *)
Lemma lastn_snoc {A} (n : nat) (l : list A) (x : A) :
  lastn n (lastn n l ++ [x]) = lastn n (l ++ [x]).
Proof.
  destruct (Nat.le_gt_cases (length l) n) as [Hle | Hgt].
  - now rewrite (lastn_short n l Hle).
  - unfold lastn at 1 3. rewrite !length_app, length_lastn. simpl.
    unfold lastn.
    rewrite <- (drop_app_le l [x] (length l - n)) by lia.
    rewrite drop_drop. f_equal. lia.
Qed.

(** What [_update_conversation_memory] leaves in each guest's history. *)
Lemma history_of_update (guest_id user_id : Z) (msg : string)
    (response : ConciergeResponse) (now : string)
    (mem : gmap Z (list ConversationTurn)) :
  history_of guest_id (_update_conversation_memory user_id msg response now mem) =
  if bool_decide (user_id = guest_id)
  then lastn 20 (history_of guest_id mem ++ [conversation_turn msg response now])
  else history_of guest_id mem.
Proof.
  unfold _update_conversation_memory, history_of.
  set (turn := conversation_turn msg response now).
  case_bool_decide as Hid.
  - subst guest_id.
    destruct (mem !! user_id) as [h|] eqn:Hlk; simpl.
    + rewrite Hlk. simpl.
      destruct (Nat.ltb_spec 20 (length (h ++ [turn]))) as [Hlt | Hle].
      * rewrite lookup_insert_eq. simpl.
        now rewrite (slice_from_neg 20) by lia.
      * rewrite lookup_insert_eq. simpl. now rewrite lastn_short.
    + rewrite lookup_insert_eq. simpl.
      rewrite lookup_insert_eq. reflexivity.
  - destruct (mem !! user_id) as [h|] eqn:Hlk; simpl.
    + rewrite Hlk. simpl.
      destruct (20 <? length (h ++ [turn]))%nat;
        now rewrite ?lookup_insert_ne by done.
    + rewrite lookup_insert_eq. simpl.
      now rewrite ?lookup_insert_ne by done.
Qed.

Lemma history_of_clear (guest_id : Z) (current_user : User)
    (mem : gmap Z (list ConversationTurn)) :
  history_of guest_id (clear_conversation_history current_user mem) =
  if bool_decide (id current_user = guest_id) then [] else history_of guest_id mem.
Proof.
  unfold clear_conversation_history, history_of.
  case_bool_decide as Hid.
  - subst guest_id. destruct (mem !! id current_user) eqn:Hlk.
    + now rewrite lookup_delete_eq.
    + now rewrite Hlk.
  - destruct (mem !! id current_user); [| reflexivity].
    now rewrite lookup_delete_ne.
Qed.

(** The stored history is the last 20 of the turns appended since the
    last clear, at every point of every run. *)
Lemma history_of_run (guest_id : Z) (ops : list MemoryOp)
    (mem : gmap Z (list ConversationTurn)) (acc : list ConversationTurn) :
  history_of guest_id mem = lastn 20 acc ->
  history_of guest_id (run_ops ops mem) = lastn 20 (appended_turns guest_id ops acc).
Proof.
  revert mem acc. induction ops as [|op ops IH]; intros mem acc Hinv.
  - exact Hinv.
  - unfold run_ops. simpl. fold (run_ops ops (apply_op mem op)).
    destruct op as [user_id msg response now | current_user]; simpl; apply IH.
    + rewrite history_of_update. case_bool_decide; [| exact Hinv].
      rewrite Hinv. apply lastn_snoc.
    + rewrite history_of_clear. case_bool_decide; [reflexivity | exact Hinv].
Qed.

Lemma history_of_run_empty (guest_id : Z) (ops : list MemoryOp) :
  history_of guest_id (run_ops ops ∅) = lastn 20 (appended_turns guest_id ops []).
Proof. apply history_of_run. reflexivity. Qed.

Lemma history_of_run_bounded (guest_id : Z) (ops : list MemoryOp) :
  (length (history_of guest_id (run_ops ops ∅)) <= 20)%nat.
Proof. rewrite history_of_run_empty, length_lastn. lia. Qed.

End Memory.

(** C1.  Starting from the empty memory of a fresh [ConciergeAI], after
    every sequence of appends and clears each guest's stored history has
    at most 20 turns.  When N > 20 turns have been appended for a guest
    (since that guest's history was last cleared, if ever), retrieving the
    history with a limit of N or more returns the last 20 of them, oldest
    first: the N - 20 oldest have been evicted, and the reported total is
    20. *)
Theorem history_bounded_fifo (ops : list MemoryOp) (current_user : User) :
  let memory := run_ops ops ∅ in
  let turns := appended_turns (id current_user) ops [] in
  (length (history_of (id current_user) memory) <= 20)%nat
  /\ (forall limit : Z,
        (20 < length turns)%nat -> (Z.of_nat (length turns) <= limit)%Z ->
        get_conversation_history limit current_user memory
        = (drop (length turns - 20) turns, 20%nat)).
Proof.
  intros memory turns. split.
  - apply history_of_run_bounded.
  - intros limit HN Hlimit. unfold get_conversation_history.
    fold (history_of (id current_user) memory).
    unfold memory. rewrite history_of_run_empty. fold turns.
    rewrite length_lastn, Nat.min_l by lia.
    destruct (Z.ltb_spec limit (Z.of_nat 20)) as [Hlt | _]; [lia |].
    reflexivity.
Qed.

Lemma history_bounded_fifo_witness :
  get_conversation_history 25 scenario_guest (run_ops scenario_ops ∅)
  = (drop 5 (appended_turns 1 scenario_ops []), 20%nat).
Proof.
  apply (proj2 (history_bounded_fifo scenario_ops scenario_guest) 25%Z).
  - vm_compute. lia.
  - vm_compute. discriminate.
Defined.

(** Scenario C on its messages: of "A" to "Y", appended in that order,
    "F" to "Y" are returned and "A" to "E" are gone. *)
Example scenario_c_keeps_latest_twenty :
  map user_message (fst (get_conversation_history 25 scenario_guest
                           (run_ops scenario_ops ∅)))
  = ["F"; "G"; "H"; "I"; "J"; "K"; "L"; "M"; "N"; "O";
     "P"; "Q"; "R"; "S"; "T"; "U"; "V"; "W"; "X"; "Y"].
Proof. vm_compute. reflexivity. Qed.

(** C10.  For a guest with a non-empty stored history, retrieving with
    limit 0 returns the whole stored history, not an empty sequence: the
    slice [history[-0:]] is the whole list.  In a memory reached from the
    empty one that is at most 20 turns. *)
Theorem history_limit_zero_returns_all (current_user : User)
    (memory : gmap Z (list ConversationTurn)) :
  let history := history_of (id current_user) memory in
  history <> [] ->
  get_conversation_history 0 current_user memory = (history, length history)
  /\ fst (get_conversation_history 0 current_user memory) <> []
  /\ Py.slice_from (- 0) history = history
  /\ (forall ops, memory = run_ops ops ∅ ->
        (length (fst (get_conversation_history 0 current_user memory)) <= 20)%nat).
Proof.
  intros history Hne.
  assert (Hget : get_conversation_history 0 current_user memory
                 = (history, length history)).
  { unfold get_conversation_history. fold (history_of (id current_user) memory).
    fold history. destruct (0 <? Z.of_nat (length history))%Z.
    - now rewrite slice_from_zero.
    - reflexivity. }
  rewrite Hget. simpl. repeat split.
  - exact Hne.
  - apply slice_from_zero.
  - intros ops ->. apply history_of_run_bounded.
Qed.

Lemma history_limit_zero_returns_all_witness :
  history_of 1 (run_ops scenario_ops ∅) <> []
  /\ get_conversation_history 0 scenario_guest (run_ops scenario_ops ∅)
     = (history_of 1 (run_ops scenario_ops ∅),
        length (history_of 1 (run_ops scenario_ops ∅))).
Proof.
  assert (H : history_of (id scenario_guest) (run_ops scenario_ops ∅) <> [])
    by (vm_compute; discriminate).
  split; [exact H |].
  exact (proj1 (history_limit_zero_returns_all scenario_guest
                  (run_ops scenario_ops ∅) H)).
Defined.

(** ** The emotion classifier *)

Section Classifier.

Lemma max_by_key_elem {A} (best : A * nat) (items : list (A * nat)) :
  Py.max_by_key best items ∈ best :: items.
Proof.
  revert best. induction items as [|item items IH]; intros best; simpl.
  - constructor.
  - destruct (best.2 <? item.2)%nat.
    + apply list_elem_of_further, IH.
    + specialize (IH best). apply elem_of_cons in IH as [-> | IH].
      * constructor.
      * now do 2 apply list_elem_of_further.
Qed.

Lemma max_by_key_bound {A} (best : A * nat) (items : list (A * nat)) :
  (best.2 <= (Py.max_by_key best items).2)%nat
  /\ forall x, x ∈ items -> (x.2 <= (Py.max_by_key best items).2)%nat.
Proof.
  revert best. induction items as [|item items IH]; intros best; simpl.
  - split; [lia | intros x Hx; inversion Hx].
  - destruct (Nat.ltb_spec best.2 item.2) as [Hlt | Hge].
    + destruct (IH item) as [H1 H2]. split; [lia |].
      intros x Hx. apply elem_of_cons in Hx as [-> | Hx]; auto.
    + destruct (IH best) as [H1 H2]. split; [exact H1 |].
      intros x Hx. apply elem_of_cons in Hx as [-> | Hx]; [lia | auto].
Qed.

Lemma emotion_scores_of_elem (table : list (EmotionType * list string))
    (text_lower : string) (e : EmotionType) (score : nat) :
  (e, score) ∈ emotion_scores_of table text_lower <->
  exists keywords, (e, keywords) ∈ table
                   /\ score = keyword_score keywords text_lower
                   /\ (0 < score)%nat.
Proof.
  induction table as [|[e' ks'] table IH]; simpl.
  - split; [intros H; inversion H | intros [ks [H _]]; inversion H].
  - destruct (Nat.ltb_spec 0 (keyword_score ks' text_lower)) as [Hpos | Hzero].
    + rewrite elem_of_cons, IH. split.
      * intros [Heq | [ks [Hin Hs]]].
        -- injection Heq as -> ->. exists ks'. split; [constructor | auto].
        -- exists ks. split; [now constructor | exact Hs].
      * intros [ks [Hin [Hs Hp]]]. apply elem_of_cons in Hin as [Heq | Hin].
        -- injection Heq as -> ->. left. now rewrite Hs.
        -- right. exists ks. auto.
    + rewrite IH. split.
      * intros [ks [Hin Hs]]. exists ks. split; [now constructor | exact Hs].
      * intros [ks [Hin [Hs Hp]]]. apply elem_of_cons in Hin as [Heq | Hin].
        -- injection Heq as -> ->. lia.
        -- exists ks. auto.
Qed.

Lemma keyword_score_le (keywords : list string) (text_lower : string) :
  (keyword_score keywords text_lower <= length keywords)%nat.
Proof. apply length_filter. Qed.

(** The count made by the classifier is the number of distinct keywords
    matched up to case. *)
Lemma keyword_score_distinct (keywords : list string) (text : string) :
  NoDup keywords -> Forall (fun kw => Py.lower kw = kw) keywords ->
  distinct_matches keywords text (keyword_score keywords (Py.lower text)).
Proof.
  intros Hnd Hlow.
  exists (filter (fun kw => Py.str_in kw (Py.lower text) = true) keywords).
  split; [now apply NoDup_filter | split; [| reflexivity]].
  intros kw. rewrite list_elem_of_filter. rewrite Forall_forall in Hlow.
  split.
  - intros [H Hin]. split; [exact Hin |]. now apply str_in_lower_iff; auto.
  - intros [Hin H]. split; [| exact Hin]. now apply str_in_lower_iff; auto.
Qed.

Lemma distinct_matches_unique (keywords : list string) (text : string) (n m : nat) :
  distinct_matches keywords text n -> distinct_matches keywords text m -> n = m.
Proof.
  intros [l1 [Hnd1 [H1 <-]]] [l2 [Hnd2 [H2 <-]]].
  apply Permutation_length, NoDup_Permutation; auto.
  intros kw. now rewrite H1, H2.
Qed.

Lemma emotion_keywords_nodup :
  Forall (fun entry => NoDup (snd entry)) emotion_keywords.
Proof.
  apply (bool_decide_unpack (Forall (fun entry => NoDup (snd entry)) emotion_keywords)).
  vm_compute. exact I.
Qed.

Lemma emotion_keywords_lower :
  Forall (fun entry => Forall (fun kw => Py.lower kw = kw) (snd entry)) emotion_keywords.
Proof. repeat constructor. Qed.

Lemma emotion_keywords_short :
  Forall (fun entry => (length (snd entry) <= 8)%nat) emotion_keywords.
Proof. repeat constructor. Qed.

Lemma emotion_entry_score (entry : EmotionType * list string) (text : string) :
  entry ∈ emotion_keywords ->
  distinct_matches (snd entry) text (keyword_score (snd entry) (Py.lower text))
  /\ (keyword_score (snd entry) (Py.lower text) <= 8)%nat.
Proof.
  intros Hin.
  pose proof emotion_keywords_nodup as Hnd.
  pose proof emotion_keywords_lower as Hlow.
  pose proof emotion_keywords_short as Hlen.
  rewrite Forall_forall in Hnd, Hlow, Hlen. split.
  - apply keyword_score_distinct; auto.
  - etransitivity; [apply keyword_score_le | auto].
Qed.

(** On the scores the classifier can reach, the product is the same in
    either order of its factors. *)
Lemma confidence_of_score_code (score : nat) :
  (score <= 8)%nat ->
  Py.min 0.9 (0.5 + (Py.float_of_nat score * 0.1))%float = confidence_of_score score.
Proof.
  intros H. do 9 (destruct score as [|score]; [reflexivity |]). lia.
Qed.

(** Confidence and intensity reached at each score. *)
Lemma intensity_of_score (score : nat) (text : option string) :
  (score <= 8)%nat ->
  _determine_intensity (confidence_of_score score) text =
  if (score <? 2)%nat then MEDIUM else if (score <? 4)%nat then HIGH else VERY_HIGH.
Proof.
  intros H. do 9 (destruct score as [|score]; [reflexivity |]). lia.
Qed.

(** More matched keywords never lower the intensity. *)
Lemma intensity_monotone_in_score (s1 s2 : nat) (text : option string) :
  (s1 <= s2 <= 8)%nat ->
  (intensity_rank (_determine_intensity (confidence_of_score s1) text)
   <= intensity_rank (_determine_intensity (confidence_of_score s2) text))%nat.
Proof.
  intros H. rewrite !intensity_of_score by lia.
  destruct (Nat.ltb_spec s1 2), (Nat.ltb_spec s1 4),
           (Nat.ltb_spec s2 2), (Nat.ltb_spec s2 4); simpl; lia.
Qed.

Lemma keyword_score_pos (keywords : list string) (text_lower : string) :
  (0 < keyword_score keywords text_lower)%nat <->
  exists kw, kw ∈ keywords /\ Py.str_in kw text_lower = true.
Proof.
  unfold keyword_score. split.
  - destruct (filter _ keywords) as [|kw l] eqn:Hf; simpl; [lia |].
    intros _. exists kw.
    assert (Hin : kw ∈ filter (fun k => Py.str_in k text_lower = true) keywords)
      by (rewrite Hf; constructor).
    apply list_elem_of_filter in Hin. tauto.
  - intros [kw [Hin Hkw]].
    assert (H : kw ∈ filter (fun k => Py.str_in k text_lower = true) keywords)
      by (apply list_elem_of_filter; auto).
    destruct (filter _ keywords); [inversion H | simpl; lia].
Qed.

(** The two ways out of [detect_text_emotion]: no emotion has a positive
    score, or the result is an emotion of the table whose score is positive
    and the largest. *)
Lemma detect_text_emotion_cases (text : string) (ctx : option string) (now : string) :
  let r := detect_text_emotion text ctx now in
  intensity r = _determine_intensity (confidence r) (Some text)
  /\ ((emotion_scores_of emotion_keywords (Py.lower text) = []
       /\ emotion r = NEUTRAL /\ confidence r = 0.5%float)
      \/ (exists keywords,
            (emotion r, keywords) ∈ emotion_keywords
            /\ (0 < keyword_score keywords (Py.lower text))%nat
            /\ (forall entry, entry ∈ emotion_keywords ->
                  (keyword_score (snd entry) (Py.lower text)
                   <= keyword_score keywords (Py.lower text))%nat)
            /\ confidence r =
                 Py.min 0.9 (0.5 + (Py.float_of_nat (keyword_score keywords (Py.lower text)) * 0.1))%float)).
Proof.
  unfold detect_text_emotion.
  destruct (emotion_scores_of emotion_keywords (Py.lower text)) as [|first rest] eqn:Hscores.
  - simpl. split; [reflexivity | left; auto].
  - pose proof (max_by_key_elem first rest) as Hin.
    pose proof (max_by_key_bound first rest) as [Hb1 Hb2].
    destruct (Py.max_by_key first rest) as [e score]. simpl.
    split; [reflexivity | right].
    rewrite <- Hscores in Hin. apply emotion_scores_of_elem in Hin as [ks [Hks [Hs Hpos]]].
    exists ks. subst score. repeat split; auto.
    intros [e' ks'] Hin'. simpl.
    destruct (Nat.eq_dec (keyword_score ks' (Py.lower text)) 0) as [-> | Hnz]; [lia |].
    assert (Hel : (e', keyword_score ks' (Py.lower text))
                  ∈ emotion_scores_of emotion_keywords (Py.lower text)).
    { apply emotion_scores_of_elem. exists ks'. repeat split; auto. lia. }
    rewrite Hscores in Hel. apply elem_of_cons in Hel as [<- | Hel].
    + exact Hb1.
    + apply (Hb2 _ Hel).
Qed.

Lemma no_keyword_no_score (text : string) (entry : EmotionType * list string) :
  (forall entry kw, entry ∈ emotion_keywords -> kw ∈ snd entry ->
                    ~ contains_ignoring_case kw text) ->
  entry ∈ emotion_keywords -> keyword_score (snd entry) (Py.lower text) = 0%nat.
Proof.
  intros Hno Hin.
  destruct (Nat.eq_dec (keyword_score (snd entry) (Py.lower text)) 0) as [H | H]; [exact H |].
  assert (Hpos : (0 < keyword_score (snd entry) (Py.lower text))%nat) by lia.
  apply keyword_score_pos in Hpos as [kw [Hkw Hm]].
  exfalso. apply (Hno entry kw Hin Hkw).
  pose proof emotion_keywords_lower as Hlow. rewrite Forall_forall in Hlow.
  specialize (Hlow entry Hin). rewrite Forall_forall in Hlow.
  now apply str_in_lower_iff; auto.
Qed.

(** A check by evaluation that no emotion keyword occurs in a text. *)
Lemma no_keyword_by_evaluation (text : string) :
  Forall (fun entry => Forall (fun kw => Py.str_in kw (Py.lower text) = false) (snd entry))
         emotion_keywords ->
  forall entry kw, entry ∈ emotion_keywords -> kw ∈ snd entry ->
                   ~ contains_ignoring_case kw text.
Proof.
  intros Hall entry kw Hin Hkw Hc.
  pose proof emotion_keywords_lower as Hlow.
  rewrite Forall_forall in Hall, Hlow.
  specialize (Hall entry Hin). specialize (Hlow entry Hin).
  rewrite Forall_forall in Hall, Hlow.
  apply str_in_lower_iff in Hc; [| now apply Hlow].
  rewrite (Hall kw Hkw) in Hc. discriminate.
Qed.

Lemma text_emotion_in_table (text : string) (ctx : option string) (now : string) :
  emotion (detect_text_emotion text ctx now)
  ∈ [JOY; SADNESS; ANGER; FEAR; STRESS; EXCITEMENT; NEUTRAL].
Proof.
  destruct (detect_text_emotion_cases text ctx now) as [_ [[_ [-> _]] | [ks [Hin _]]]].
  - repeat constructor.
  - unfold emotion_keywords in Hin.
    elem_cases Hin; injection Hin as -> _; repeat constructor.
Qed.

End Classifier.

(** C6.  For a text in which no emotion keyword occurs (the empty text is
    one), the classifier returns NEUTRAL with confidence exactly 0.5 and
    intensity MEDIUM.  When some keyword occurs, the emotion returned is
    one of the table, its score, the number of distinct keywords of its
    set that occur in the text, is at least 1 and the largest of all
    emotions, and the confidence is min(0.9, 0.5 + 0.1 * score) in
    binary64 arithmetic; the intensity is then MEDIUM for score 1, HIGH for
    scores 2 and 3, VERY_HIGH from score 4 on.  In every case the intensity
    is read off the confidence by the thresholds 0.9, 0.7, 0.5, 0.3, tried
    in that order, and on the confidences of the formula a larger score
    never gives a lower intensity. *)
Theorem classifier_confidence_and_intensity (text : string)
    (ctx : option string) (now : string) :
  let r := detect_text_emotion text ctx now in
  ((forall entry kw, entry ∈ emotion_keywords -> kw ∈ snd entry ->
                     ~ contains_ignoring_case kw text) ->
   emotion r = NEUTRAL /\ confidence r = 0.5%float /\ intensity r = MEDIUM)
  /\ ((exists entry kw, entry ∈ emotion_keywords /\ kw ∈ snd entry
                        /\ contains_ignoring_case kw text) ->
      exists keywords score,
        (emotion r, keywords) ∈ emotion_keywords
        /\ distinct_matches keywords text score
        /\ (1 <= score)%nat
        /\ (forall entry score', entry ∈ emotion_keywords ->
              distinct_matches (snd entry) text score' -> (score' <= score)%nat)
        /\ confidence r = confidence_of_score score
        /\ intensity r = (if (score <? 2)%nat then MEDIUM
                          else if (score <? 4)%nat then HIGH else VERY_HIGH))
  /\ intensity r = _determine_intensity (confidence r) (Some text)
  /\ (forall (s1 s2 : nat) (t : option string),
        (s1 <= s2 <= 8)%nat ->
        (intensity_rank (_determine_intensity (confidence_of_score s1) t)
         <= intensity_rank (_determine_intensity (confidence_of_score s2) t))%nat)
  /\ (forall (c : float) (t : option string),
        ((0.9 <=? c)%float = true -> _determine_intensity c t = VERY_HIGH)
        /\ ((0.9 <=? c)%float = false -> (0.7 <=? c)%float = true ->
            _determine_intensity c t = HIGH)
        /\ ((0.9 <=? c)%float = false -> (0.7 <=? c)%float = false ->
            (0.5 <=? c)%float = true -> _determine_intensity c t = MEDIUM)
        /\ ((0.9 <=? c)%float = false -> (0.7 <=? c)%float = false ->
            (0.5 <=? c)%float = false -> (0.3 <=? c)%float = true ->
            _determine_intensity c t = LOW)
        /\ ((0.9 <=? c)%float = false -> (0.7 <=? c)%float = false ->
            (0.5 <=? c)%float = false -> (0.3 <=? c)%float = false ->
            _determine_intensity c t = VERY_LOW)).
Proof.
  intros r.
  destruct (detect_text_emotion_cases text ctx now) as [Hint Hcases].
  fold r in Hint, Hcases.
  split; [| split; [| split; [exact Hint | split]]].
  - intros Hno. destruct Hcases as [[_ [He Hc]] | [ks [Hin [Hpos _]]]].
    + rewrite Hint, He, Hc. auto.
    + pose proof (no_keyword_no_score text (emotion r, ks) Hno Hin) as Hz.
      simpl in Hz. lia.
  - intros [entry [kw [Hin [Hkw Hc]]]].
    destruct Hcases as [[Hnil _] | [ks [Hks [Hpos [Hmax Hconf]]]]].
    + exfalso.
      assert (Hp : (0 < keyword_score (snd entry) (Py.lower text))%nat).
      { apply keyword_score_pos. exists kw. split; [exact Hkw |].
        pose proof emotion_keywords_lower as Hlow. rewrite Forall_forall in Hlow.
        specialize (Hlow entry Hin). rewrite Forall_forall in Hlow.
        now apply str_in_lower_iff; auto. }
      assert (Hel : (fst entry, keyword_score (snd entry) (Py.lower text))
                    ∈ emotion_scores_of emotion_keywords (Py.lower text)).
      { apply emotion_scores_of_elem. exists (snd entry).
        destruct entry; simpl in *; auto. }
      rewrite Hnil in Hel. inversion Hel.
    + destruct (emotion_entry_score (emotion r, ks) text Hks) as [Hd Hle].
      simpl in Hd, Hle.
      exists ks, (keyword_score ks (Py.lower text)).
      split; [exact Hks | split; [exact Hd | split; [lia | split; [| split]]]].
      * intros entry' score' Hin' Hd'.
        destruct (emotion_entry_score entry' text Hin') as [Hd'' _].
        rewrite (distinct_matches_unique _ _ _ _ Hd' Hd''). now apply Hmax.
      * rewrite Hconf. now apply confidence_of_score_code.
      * rewrite Hint, Hconf, confidence_of_score_code by exact Hle.
        apply intensity_of_score. lia.
  - apply intensity_monotone_in_score.
  - intros c t. unfold _determine_intensity.
    repeat split; intros; repeat match goal with H : _ = _ |- _ => rewrite H end;
      reflexivity.
Qed.

Lemma classifier_confidence_and_intensity_witness :
  let r := detect_text_emotion "" None "2024-01-01T00:00:00" in
  emotion r = NEUTRAL /\ confidence r = 0.5%float /\ intensity r = MEDIUM.
Proof.
  apply (classifier_confidence_and_intensity "" None "2024-01-01T00:00:00").
  apply no_keyword_by_evaluation. repeat constructor.
Defined.

(** C9.  From a text the classifier only returns one of JOY, SADNESS,
    ANGER, FEAR, STRESS, EXCITEMENT, NEUTRAL: the emotions ANXIETY,
    FRUSTRATION, CONTENTMENT, SURPRISE and DISGUST have no keyword set and
    are never returned.  So on an emotion result that comes from a text,
    the second escalation rule (intensity HIGH or VERY_HIGH with emotion
    ANGER or FRUSTRATION) can only hold with ANGER; in particular, when the
    category is not EMERGENCY and the message has none of the complex
    keywords, a true answer means that the emotion is ANGER. *)
Theorem text_emotions_and_anger_rule (text : string) (ctx : option string)
    (now : string) :
  let r := detect_text_emotion text ctx now in
  emotion r ∈ [JOY; SADNESS; ANGER; FEAR; STRESS; EXCITEMENT; NEUTRAL]
  /\ (emotion r ∉ [ANXIETY; FRUSTRATION; CONTENTMENT; SURPRISE; DISGUST])
  /\ map fst emotion_keywords = [JOY; SADNESS; ANGER; FEAR; STRESS; EXCITEMENT]
  /\ ((intensity r = HIGH \/ intensity r = VERY_HIGH) ->
      (emotion r = ANGER \/ emotion r = FRUSTRATION) -> emotion r = ANGER)
  /\ (forall (msg : string) (service : ServiceType),
        service <> EMERGENCY ->
        Py.any_in complex_keywords (Py.lower msg) = false ->
        _requires_human_intervention msg (Some r) service = true ->
        emotion r = ANGER /\ (intensity r = HIGH \/ intensity r = VERY_HIGH)).
Proof.
  intros r. pose proof (text_emotion_in_table text ctx now) as Hin. fold r in Hin.
  assert (Hnot : emotion r <> FRUSTRATION).
  { intros He. rewrite He in Hin. elem_cases Hin; discriminate. }
  split; [exact Hin | split; [| split; [reflexivity | split]]].
  - intros Hbad. elem_cases Hbad; rewrite Hbad in Hin; elem_cases Hin; discriminate.
  - intros _ [He | He]; [exact He | contradiction].
  - intros msg service Hs Hkw Hreq.
    rewrite requires_human_unfold, Hkw, orb_false_r in Hreq.
    apply orb_true_iff in Hreq as [Hreq | Hreq].
    + apply bool_decide_eq_true in Hreq. contradiction.
    + apply negative_emotion_test_iff in Hreq as [r' [Hr' [Hi He]]].
      injection Hr' as <-. destruct He as [He | He]; [auto | contradiction].
Qed.

Lemma text_emotions_and_anger_rule_witness :
  let r := detect_text_emotion "I am angry and mad" None "2024-01-01T00:00:00" in
  emotion r = ANGER /\ (intensity r = HIGH \/ intensity r = VERY_HIGH).
Proof.
  apply (text_emotions_and_anger_rule "I am angry and mad" None
           "2024-01-01T00:00:00") with (msg := "I am angry and mad") (service := GENERAL).
  - discriminate.
  - reflexivity.
  - reflexivity.
Defined.

(** ** Scenario A *)

(** C3, as the specification states it, fails: the router does select
    BUSINESS for the message of scenario A. *)
Lemma scenario_a_not_general :
  ~ (let r := detect_text_emotion scenario_a_message None "2024-01-01T00:00:00" in
     _classify_service_type scenario_a_message <> BUSINESS
     /\ _classify_service_type scenario_a_message = GENERAL
     /\ emotion r = STRESS
     /\ exists a, a ∈ _generate_proactive_actions (Some r) GENERAL scenario_guest
                  /\ action a = "adjust_lighting" /\ value a = "dim").
Proof. intros [H _]. apply H. reflexivity. Qed.

(** C3, amended.  For the message "I am so stressed about tomorrow's
    meeting" the router returns BUSINESS: "meeting" is a business keyword
    and no keyword of an earlier category occurs.  The classifier returns
    STRESS, and the proactive actions include the entry with action
    adjust_lighting and value dim. *)
Theorem scenario_a_business_stress_dim (ctx : option string) (now : string)
    (user : User) :
  let r := detect_text_emotion scenario_a_message ctx now in
  _classify_service_type scenario_a_message = BUSINESS
  /\ keyword_match ["business"; "meeting"; "conference"; "work"; "office"; "presentation"]
                   scenario_a_message
  /\ emotion r = STRESS
  /\ exists a, a ∈ _generate_proactive_actions
                      (Some r) (_classify_service_type scenario_a_message) user
               /\ action a = "adjust_lighting" /\ value a = "dim".
Proof.
  intros r. split; [reflexivity | split; [| split; [reflexivity |]]].
  - exists "meeting". split; [repeat constructor |].
    exists "I am so stressed about tomorrow's ", "meeting", "". split; reflexivity.
  - exists (mkAction "adjust_lighting" "dim" "Create calming atmosphere").
    split; [| split; reflexivity].
    change (_generate_proactive_actions (Some r)
              (_classify_service_type scenario_a_message) user)
      with [ mkAction "adjust_lighting" "dim" "Create calming atmosphere";
             mkAction "suggest_wellness" "spa_treatment" "Help reduce stress";
             mkAction "adjust_temperature" "comfortable" "Optimize comfort" ].
    constructor.
Qed.

(** ** Personalities *)

Section Personality.

Lemma personality_of_value_member (p : ConciergePersonality) :
  ConciergePersonality_of_value (ConciergePersonality_value p) = inr p.
Proof. destruct p; reflexivity. Qed.





Lemma greeting_professional_differs (guest_name : string) :
  "Hello " ++ guest_name ++ ". How can I assist you today?"
  <> "Good day, " ++ guest_name ++ ". How may I assist you today?".
Proof. discriminate. Qed.

End Personality.




(** C7, as the specification states it, fails: the greeting for "casual"
    is not the PROFESSIONAL greeting for the same guest. *)
Lemma casual_greeting_not_professional :
  greeting_of CASUAL "John" <> greeting_of PROFESSIONAL "John"
  /\ _generate_template_response "hello" CASUAL GENERAL None
       {| id := 1; first_name := "John"; preferred_ai_personality := "casual" |}
     <> _generate_template_response "hello" PROFESSIONAL GENERAL None
          {| id := 1; first_name := "John"; preferred_ai_personality := "casual" |}.
Proof. split; discriminate. Qed.

(** C7, amended.  For every guest name, the response synthesized for
    FORMAL, CASUAL, EFFICIENT or CONVERSATIONAL opens with the default
    greeting "Hello <name>. How can I assist you today?", the same for the
    four of them; it is not the PROFESSIONAL greeting
    "Good day, <name>. How may I assist you today?". *)
Theorem unmapped_personality_default_greeting (p : ConciergePersonality)
    (msg : string) (service : ServiceType)
    (emotion_result : option EmotionResult) (user : User) :
  p ∈ unmapped_personalities ->
  greeting_of p (first_name user)
  = "Hello " ++ first_name user ++ ". How can I assist you today?"
  /\ greeting_of PROFESSIONAL (first_name user)
     = "Good day, " ++ first_name user ++ ". How may I assist you today?"
  /\ greeting_of p (first_name user) <> greeting_of PROFESSIONAL (first_name user)
  /\ (exists rest,
        _generate_template_response msg p service emotion_result user
        = greeting_of p (first_name user) ++ " " ++ rest)
  /\ _generate_template_response msg p service emotion_result user
     = _generate_template_response msg CASUAL service emotion_result user
  /\ _generate_template_response msg p service emotion_result user
     <> _generate_template_response msg PROFESSIONAL service emotion_result user.
Proof.
  intros Hp. unfold unmapped_personalities in Hp.
  assert (Hg : greeting_of p (first_name user)
               = "Hello " ++ first_name user ++ ". How can I assist you today?")
    by (elem_cases Hp; subst p; reflexivity).
  split; [exact Hg | split; [reflexivity | split; [| split; [| split]]]].
  - rewrite Hg. apply greeting_professional_differs.
  - unfold _generate_template_response. eexists. reflexivity.
  - unfold _generate_template_response. rewrite Hg. reflexivity.
  - unfold _generate_template_response. rewrite Hg. discriminate.
Qed.

Lemma unmapped_personality_default_greeting_witness :
  greeting_of CASUAL "John" = "Hello John. How can I assist you today?".
Proof.
  apply (unmapped_personality_default_greeting CASUAL "hello" GENERAL None
           {| id := 1; first_name := "John"; preferred_ai_personality := "casual" |}).
  unfold unmapped_personalities. repeat constructor.
Defined.

(** ** Determinism *)




(** ** Further properties of the conversation memory *)

Section MemoryEndpoints.

Lemma lastn_suffix {A} (n : nat) (l : list A) :
  exists older, l = (older ++ lastn n l)%list.
Proof. exists (take (length l - n) l). unfold lastn. now rewrite take_drop. Qed.

Lemma last_lastn_snoc {A} (n : nat) (l : list A) (x : A) :
  (0 < n)%nat -> last (lastn n (l ++ [x])) = Some x.
Proof.
  intros Hn. unfold lastn. rewrite length_app. simpl.
  rewrite drop_app_le by lia. apply last_snoc.
Qed.

Lemma update_lookup_other (user_id other : Z) (msg : string)
    (response : ConciergeResponse) (now : string)
    (mem : gmap Z (list ConversationTurn)) :
  other <> user_id ->
  _update_conversation_memory user_id msg response now mem !! other = mem !! other.
Proof.
  intros Hne. unfold _update_conversation_memory.
  destruct (mem !! user_id) as [h|] eqn:Hlk; simpl.
  - rewrite Hlk. simpl.
    destruct (20 <? length (h ++ [conversation_turn msg response now]))%nat;
      now rewrite ?lookup_insert_ne by done.
  - rewrite lookup_insert_eq. simpl.
    now rewrite ?lookup_insert_ne by done.
Qed.

Lemma update_lookup_same (user_id : Z) (msg : string)
    (response : ConciergeResponse) (now : string)
    (mem : gmap Z (list ConversationTurn)) :
  _update_conversation_memory user_id msg response now mem !! user_id
  = Some (lastn 20 (history_of user_id mem ++ [conversation_turn msg response now])).
Proof.
  pose proof (history_of_update user_id user_id msg response now mem) as H.
  rewrite bool_decide_eq_true_2 in H by reflexivity.
  unfold history_of at 1 in H.
  destruct (_update_conversation_memory user_id msg response now mem !! user_id)
    as [h|] eqn:Hlk; simpl in H; [now rewrite H |].
  exfalso. revert Hlk. unfold _update_conversation_memory.
  destruct (mem !! user_id) as [h|] eqn:Hm; simpl.
  - rewrite Hm. simpl.
    destruct (20 <? length (h ++ [conversation_turn msg response now]))%nat;
      now rewrite lookup_insert_eq.
  - rewrite lookup_insert_eq. simpl. now rewrite lookup_insert_eq.
Qed.

Lemma clear_is_delete (current_user : User) (mem : gmap Z (list ConversationTurn)) :
  clear_conversation_history current_user mem = delete (id current_user) mem.
Proof.
  unfold clear_conversation_history.
  destruct (mem !! id current_user) eqn:Hlk; [reflexivity |].
  symmetry. now apply delete_id.
Qed.

End MemoryEndpoints.

(** X1.  For a guest without an entry in the memory, the history endpoint
    returns the empty sequence and the total 0, whatever the limit is,
    negative limits included. *)
Theorem history_unknown_guest_empty (limit : Z) (current_user : User)
    (memory : gmap Z (list ConversationTurn)) :
  memory !! id current_user = None ->
  get_conversation_history limit current_user memory = ([], 0%nat).
Proof.
  intros Hnone. unfold get_conversation_history. rewrite Hnone. simpl.
  destruct (limit <? Z.of_nat 0)%Z; [| reflexivity].
  unfold Py.slice_from. now rewrite drop_nil.
Qed.

Lemma history_unknown_guest_empty_witness :
  get_conversation_history (-3) scenario_guest ∅ = ([], 0%nat).
Proof. apply (history_unknown_guest_empty (-3) scenario_guest ∅). reflexivity. Defined.

(** X2.  With a limit of 1 or more, the history endpoint returns the last
    min(limit, stored) turns of the stored history, in stored order, and
    reports the stored length as the total. *)
Theorem history_positive_limit_last_turns (limit : Z) (current_user : User)
    (memory : gmap Z (list ConversationTurn)) :
  (0 < limit)%Z ->
  let history := history_of (id current_user) memory in
  get_conversation_history limit current_user memory
  = (lastn (Z.to_nat limit) history, length history)
  /\ length (fst (get_conversation_history limit current_user memory))
     = Nat.min (Z.to_nat limit) (length history)
  /\ exists older,
       history = (older ++ fst (get_conversation_history limit current_user memory))%list.
Proof.
  intros Hpos history.
  assert (Hget : get_conversation_history limit current_user memory
                 = (lastn (Z.to_nat limit) history, length history)).
  { unfold get_conversation_history. fold (history_of (id current_user) memory).
    fold history. destruct (Z.ltb_spec limit (Z.of_nat (length history))) as [Hlt | Hge].
    - replace limit with (Z.of_nat (Z.to_nat limit)) at 1 by lia.
      rewrite slice_from_neg by lia. reflexivity.
    - rewrite lastn_short by lia. reflexivity. }
  rewrite Hget. simpl. split; [reflexivity | split].
  - apply length_lastn.
  - apply lastn_suffix.
Qed.

Lemma history_positive_limit_last_turns_witness :
  get_conversation_history 3 scenario_guest (run_ops scenario_ops ∅)
  = (lastn 3 (history_of 1 (run_ops scenario_ops ∅)),
     length (history_of 1 (run_ops scenario_ops ∅))).
Proof.
  apply (history_positive_limit_last_turns 3 scenario_guest (run_ops scenario_ops ∅)).
  reflexivity.
Defined.

(** X3.  With a negative limit the history endpoint does not return the
    latest turns: it returns the stored history without its |limit| oldest
    turns (nothing when there are no more than |limit|), because the slice
    [history[-limit:]] then starts at the positive index |limit|. *)
Theorem history_negative_limit_drops_oldest (limit : Z) (current_user : User)
    (memory : gmap Z (list ConversationTurn)) :
  (limit < 0)%Z ->
  let history := history_of (id current_user) memory in
  get_conversation_history limit current_user memory
  = (drop (Z.to_nat (- limit)) history, length history)
  /\ ((length history <= Z.to_nat (- limit))%nat ->
      fst (get_conversation_history limit current_user memory) = []).
Proof.
  intros Hneg history.
  assert (Hget : get_conversation_history limit current_user memory
                 = (drop (Z.to_nat (- limit)) history, length history)).
  { unfold get_conversation_history. fold (history_of (id current_user) memory).
    fold history. destruct (Z.ltb_spec limit (Z.of_nat (length history))) as [_ | Hge]; [| lia].
    unfold Py.slice_from.
    destruct (Z.ltb_spec (- limit) 0) as [H | _]; [lia |].
    destruct (Z.min_spec (- limit) (Z.of_nat (length history))) as [[_ ->] | [Hle ->]].
    - reflexivity.
    - rewrite Nat2Z.id, drop_all. f_equal. symmetry. apply drop_ge. lia. }
  rewrite Hget. simpl. split; [reflexivity |]. intros Hlen. now apply drop_ge.
Qed.

Lemma history_negative_limit_drops_oldest_witness :
  get_conversation_history (-1) scenario_guest (run_ops scenario_ops ∅)
  = (drop 1 (history_of 1 (run_ops scenario_ops ∅)),
     length (history_of 1 (run_ops scenario_ops ∅))).
Proof.
  apply (history_negative_limit_drops_oldest (-1) scenario_guest (run_ops scenario_ops ∅)).
  reflexivity.
Defined.

(** X4.  Clearing removes the guest's entry and nothing else: afterwards
    the history endpoint returns the empty sequence and total 0 for that
    guest at every limit, every other guest's entry is as before, and a
    second clear changes nothing.  Clearing a guest without an entry leaves
    the memory as it is. *)
Theorem clear_history_effects (limit : Z) (current_user : User)
    (memory : gmap Z (list ConversationTurn)) :
  let cleared := clear_conversation_history current_user memory in
  cleared !! id current_user = None
  /\ get_conversation_history limit current_user cleared = ([], 0%nat)
  /\ (forall other, other <> id current_user -> cleared !! other = memory !! other)
  /\ clear_conversation_history current_user cleared = cleared
  /\ (memory !! id current_user = None -> cleared = memory).
Proof.
  intros cleared. unfold cleared. rewrite !clear_is_delete.
  assert (Hnone : delete (id current_user) memory !! id current_user = None)
    by apply lookup_delete_eq.
  split; [exact Hnone | split; [| split; [| split]]].
  - now apply history_unknown_guest_empty.
  - intros other Hne. now apply lookup_delete_ne.
  - now apply delete_id.
  - intros H. now apply delete_id.
Qed.

Lemma clear_history_effects_witness :
  clear_conversation_history scenario_guest (run_ops scenario_ops ∅) !! 2%Z
  = run_ops scenario_ops ∅ !! 2%Z.
Proof.
  apply (clear_history_effects 10 scenario_guest (run_ops scenario_ops ∅)).
  discriminate.
Defined.

(** X5.  An update of the memory puts the new turn last in that guest's
    history, keeps the turns before it in order, evicting from the front
    beyond 20, so that the length becomes min(20, old length + 1); the
    entries of all other guests are untouched. *)
Theorem update_memory_effects (user_id : Z) (msg : string)
    (response : ConciergeResponse) (now : string)
    (memory : gmap Z (list ConversationTurn)) :
  let updated := _update_conversation_memory user_id msg response now memory in
  let old := history_of user_id memory in
  let turn := conversation_turn msg response now in
  updated !! user_id = Some (lastn 20 (old ++ [turn]))
  /\ last (history_of user_id updated) = Some turn
  /\ length (history_of user_id updated) = Nat.min 20 (S (length old))
  /\ (exists evicted, (old ++ [turn])%list = (evicted ++ history_of user_id updated)%list)
  /\ (forall other, other <> user_id -> updated !! other = memory !! other).
Proof.
  intros updated old turn.
  assert (Hsame : updated !! user_id = Some (lastn 20 (old ++ [turn])))
    by apply update_lookup_same.
  assert (Hhist : history_of user_id updated = lastn 20 (old ++ [turn]))
    by (unfold history_of at 1; now rewrite Hsame).
  split; [exact Hsame | split; [| split; [| split]]].
  - rewrite Hhist. apply last_lastn_snoc. lia.
  - rewrite Hhist, length_lastn, length_app.
    change (length [turn]) with 1%nat. lia.
  - rewrite Hhist. apply lastn_suffix.
  - intros other Hne. now apply update_lookup_other.
Qed.

Lemma update_memory_effects_witness :
  _update_conversation_memory 1 "hi" scenario_response "now" (run_ops scenario_ops ∅) !! 2%Z
  = run_ops scenario_ops ∅ !! 2%Z.
Proof.
  apply (update_memory_effects 1 "hi" scenario_response "now" (run_ops scenario_ops ∅)).
  discriminate.
Defined.

(** ** The pipeline and the memory *)

Section PipelineMemory.

(** What a returned response and the memory beside it are made of. *)
Lemma process_success_inv (msg : string) (user : User)
    (ctx : option (gmap string string)) (now_emotion now_turn : string)
    (memory memory' : gmap Z (list ConversationTurn))
    (response : ConciergeResponse) :
  process_guest_message msg user ctx now_emotion now_turn memory
  = (inr response, memory') ->
  memory' = _update_conversation_memory (id user) msg response now_turn memory
  /\ exists p,
       ConciergePersonality_of_value (preferred_ai_personality user) = inr p
       /\ response
          = _generate_response msg user p (_classify_service_type msg)
              (Some (detect_text_emotion msg
                       (match ctx with
                        | Some c => c !! "conversation_context"
                        | None => None
                        end) now_emotion)) ctx.
Proof.
  unfold process_guest_message.
  destruct (ConciergePersonality_of_value (preferred_ai_personality user))
    as [exc | p]; [discriminate |].
  intros H. injection H as <- <-. split; [reflexivity | eauto].
Qed.

Lemma process_failure_inv (msg : string) (user : User)
    (ctx : option (gmap string string)) (now_emotion now_turn : string)
    (memory memory' : gmap Z (list ConversationTurn)) (exc : Py.PyExc) :
  process_guest_message msg user ctx now_emotion now_turn memory
  = (inl exc, memory') ->
  memory' = memory
  /\ ConciergePersonality_of_value (preferred_ai_personality user) = inl exc.
Proof.
  unfold process_guest_message.
  destruct (ConciergePersonality_of_value (preferred_ai_personality user))
    as [exc' | p]; [| discriminate].
  intros H. injection H as <- <-. auto.
Qed.

End PipelineMemory.

(** X6.  After [process_guest_message] has returned a response, the
    history endpoint, asked for one turn or more, ends with the exchange
    just made: the guest's message, the response text, the value of the
    emotion detected in the message, the value of the category the router
    gave, stamped with the clock reading of the update.  The reported total
    is min(20, previous length + 1). *)
Theorem process_then_history_ends_with_exchange (msg : string) (user : User)
    (ctx : option (gmap string string)) (now_emotion now_turn : string)
    (memory memory' : gmap Z (list ConversationTurn))
    (response : ConciergeResponse) (limit : Z) :
  process_guest_message msg user ctx now_emotion now_turn memory
  = (inr response, memory') ->
  (1 <= limit)%Z ->
  last (fst (get_conversation_history limit user memory'))
  = Some {| turn_timestamp := now_turn;
            user_message := msg;
            ai_response := message response;
            turn_emotion_detected :=
              Some (EmotionType_value
                      (emotion (detect_text_emotion msg
                                  (match ctx with
                                   | Some c => c !! "conversation_context"
                                   | None => None
                                   end) now_emotion)));
            turn_service_type := ServiceType_value (_classify_service_type msg) |}
  /\ snd (get_conversation_history limit user memory')
     = Nat.min 20 (S (length (history_of (id user) memory))).
Proof.
  intros Hproc Hlimit.
  destruct (process_success_inv _ _ _ _ _ _ _ _ Hproc) as [-> [p [_ Hresp]]].
  destruct (update_memory_effects (id user) msg response now_turn memory)
    as [_ [Hlast [Hlen _]]].
  destruct (history_positive_limit_last_turns limit user
              (_update_conversation_memory (id user) msg response now_turn memory))
    as [Hget _]; [lia |].
  rewrite Hget. cbn [fst snd]. split; [| exact Hlen].
  apply last_Some in Hlast as [front Hfront]. rewrite Hfront.
  unfold lastn. rewrite length_app.
  change (length [conversation_turn msg response now_turn]) with 1%nat.
  rewrite drop_app_le by lia. rewrite last_snoc. f_equal.
  unfold conversation_turn. f_equal; rewrite Hresp; reflexivity.
Qed.

Lemma process_then_history_ends_with_exchange_witness :
  exists response memory',
    process_guest_message "hello" scenario_guest None "t0" "t1" ∅
    = (inr response, memory')
    /\ last (fst (get_conversation_history 10 scenario_guest memory'))
       = Some {| turn_timestamp := "t1"; user_message := "hello";
                 ai_response := message response;
                 turn_emotion_detected := Some "neutral";
                 turn_service_type := "general" |}.
Proof.
  eexists. eexists. split; [reflexivity |].
  refine (proj1 (process_then_history_ends_with_exchange "hello" scenario_guest
                   None "t0" "t1" ∅ _ _ 10 eq_refl _)).
  lia.
Defined.

(** X7.  Whatever the outcome of [process_guest_message], the memory
    entries of all other guests are as before; and when it raises, the
    whole memory is as before. *)
Theorem process_leaves_other_guests (msg : string) (user : User)
    (ctx : option (gmap string string)) (now_emotion now_turn : string)
    (memory : gmap Z (list ConversationTurn)) :
  let outcome := process_guest_message msg user ctx now_emotion now_turn memory in
  (forall other, other <> id user -> snd outcome !! other = memory !! other)
  /\ (forall exc, fst outcome = inl exc -> snd outcome = memory).
Proof.
  intros outcome. unfold outcome.
  destruct (process_guest_message msg user ctx now_emotion now_turn memory)
    as [[exc | response] memory'] eqn:Hproc; cbn [fst snd].
  - destruct (process_failure_inv _ _ _ _ _ _ _ _ Hproc) as [-> _].
    split; [reflexivity | reflexivity].
  - destruct (process_success_inv _ _ _ _ _ _ _ _ Hproc) as [-> _].
    split; [| discriminate].
    intros other Hne. now apply update_lookup_other.
Qed.

Lemma process_leaves_other_guests_witness :
  snd (process_guest_message "hello" scenario_guest None "t0" "t1"
         (run_ops scenario_ops ∅)) !! 2%Z
  = run_ops scenario_ops ∅ !! 2%Z.
Proof.
  apply (process_leaves_other_guests "hello" scenario_guest None "t0" "t1"
           (run_ops scenario_ops ∅)).
  discriminate.
Defined.

(** ** Further properties of the router *)

Section RouterMore.

Lemma str_in_trans (kw inner s : string) :
  Py.str_in kw inner = true -> Py.str_in inner s = true -> Py.str_in kw s = true.
Proof.
  rewrite !str_in_iff. intros [c [d ->]] [a [b ->]].
  exists (a ++ c), (d ++ b). now rewrite !append_assoc.
Qed.

Lemma str_in_extend (kw pre text post : string) :
  Py.str_in kw (Py.lower text) = true ->
  Py.str_in kw (Py.lower (pre ++ text ++ post)) = true.
Proof.
  rewrite !str_in_iff. intros [a [b H]].
  exists (Py.lower pre ++ a), (b ++ Py.lower post).
  rewrite !lower_append, H, !append_assoc. reflexivity.
Qed.

Lemma any_in_extend (keywords : list string) (pre text post : string) :
  Py.any_in keywords (Py.lower text) = true ->
  Py.any_in keywords (Py.lower (pre ++ text ++ post)) = true.
Proof.
  rewrite !any_in_iff. intros [kw [Hin H]]. exists kw.
  split; [exact Hin | now apply str_in_extend].
Qed.

(** A keyword that contains a keyword of the set brings a match of the set. *)
Lemma any_in_of_inner (keywords : list string) (kw outer text : string) :
  kw ∈ keywords -> Py.str_in kw outer = true -> Py.lower outer = outer ->
  contains_ignoring_case outer text ->
  Py.any_in keywords (Py.lower text) = true.
Proof.
  intros Hin Hinner Hlow Hc. apply any_in_iff. exists kw. split; [exact Hin |].
  apply (str_in_trans kw outer); [exact Hinner |].
  now apply str_in_lower_iff.
Qed.

End RouterMore.

(** X8.  The router returns exactly the eight categories ROOM_SERVICE,
    DINING, WELLNESS, TRANSPORTATION, ENTERTAINMENT, BUSINESS, EMERGENCY
    and GENERAL: each is the route of some text, and HOUSEKEEPING and
    CONCIERGE are the route of none.  So the category of a response always
    has its own entry in [service_responses]. *)
Theorem router_reaches_eight_categories :
  (forall text,
     _classify_service_type text
     ∈ [ROOM_SERVICE; DINING; WELLNESS; TRANSPORTATION; ENTERTAINMENT;
        BUSINESS; EMERGENCY; GENERAL]
     /\ _classify_service_type text <> HOUSEKEEPING
     /\ _classify_service_type text <> CONCIERGE
     /\ is_Some (service_responses (_classify_service_type text)))
  /\ (forall category,
        category ∈ [ROOM_SERVICE; DINING; WELLNESS; TRANSPORTATION; ENTERTAINMENT;
                    BUSINESS; EMERGENCY; GENERAL] ->
        exists text, _classify_service_type text = category).
Proof.
  split.
  - intros text. unfold _classify_service_type.
    repeat match goal with
           | |- context [if Py.any_in ?l ?t then _ else _] => destruct (Py.any_in l t)
           end;
      (split; [repeat constructor | split; [discriminate | split; [discriminate | eexists; reflexivity]]]).
  - intros category Hc. elem_cases Hc; subst category.
    + exists "room". reflexivity.
    + exists "food". reflexivity.
    + exists "spa". reflexivity.
    + exists "taxi". reflexivity.
    + exists "show". reflexivity.
    + exists "work". reflexivity.
    + exists "help". reflexivity.
    + exists "". reflexivity.
Qed.

Lemma router_reaches_eight_categories_witness :
  exists text, _classify_service_type text = EMERGENCY.
Proof.
  apply (proj2 router_reaches_eight_categories EMERGENCY). repeat constructor.
Defined.

(** X9.  When a keyword of a category listed before EMERGENCY occurs in
    the message, the route is not EMERGENCY even if an emergency keyword
    occurs too, and the escalation decision on that route rests on the
    other two rules alone: without a high-intensity ANGER or FRUSTRATION
    result and without a complex keyword, no human is required. *)
Theorem earlier_category_masks_emergency (text : string)
    (emotion_result : option EmotionResult) :
  (exists entry, entry ∈ take 6 service_precedence /\ keyword_match (snd entry) text) ->
  _classify_service_type text <> EMERGENCY
  /\ (service_rank (_classify_service_type text) < 6)%nat
  /\ _requires_human_intervention text emotion_result (_classify_service_type text)
     = negative_emotion_test emotion_result
       || Py.any_in complex_keywords (Py.lower text).
Proof.
  intros [entry [Hin Hmatch]].
  assert (Hrank : (service_rank (_classify_service_type text) < 6)%nat).
  { assert (Hany : Py.any_in (snd entry) (Py.lower text) = true).
    { apply precedence_entry_matches; [| exact Hmatch].
      apply (subseteq_take 6). exact Hin. }
    unfold service_precedence in Hin. cbn [take] in Hin.
    unfold _classify_service_type.
    elem_cases Hin; subst entry; cbn [snd] in Hany;
      repeat match goal with
             | |- context [if Py.any_in ?l ?t then _ else _] =>
                 destruct (Py.any_in l t) eqn:?
             end; simpl; try lia; discriminate. }
  assert (Hne : _classify_service_type text <> EMERGENCY)
    by (intros He; rewrite He in Hrank; simpl in Hrank; lia).
  split; [exact Hne | split; [exact Hrank |]].
  rewrite requires_human_unfold.
  now rewrite (bool_decide_eq_false_2 _ Hne).
Qed.

Lemma earlier_category_masks_emergency_witness :
  _requires_human_intervention "There is an EMERGENCY in my Room" None
    (_classify_service_type "There is an EMERGENCY in my Room")
  = negative_emotion_test None
    || Py.any_in complex_keywords (Py.lower "There is an EMERGENCY in my Room").
Proof.
  apply (earlier_category_masks_emergency "There is an EMERGENCY in my Room" None).
  exists (ROOM_SERVICE, ["room"; "housekeeping"; "cleaning"; "amenities";
                         "temperature"; "lighting"]).
  split; [constructor |].
  exists "room". split; [constructor |].
  exists "There is an EMERGENCY in my ", "Room", "". split; reflexivity.
Defined.

(** X10.  Putting a message inside a longer one never moves its route to
    a later category of the precedence list: the route of
    [pre ++ text ++ post] is that of [text] or an earlier one. *)
Theorem route_of_extension_not_later (pre text post : string) :
  (service_rank (_classify_service_type (pre ++ text ++ post))
   <= service_rank (_classify_service_type text))%nat.
Proof.
  unfold _classify_service_type.
  repeat match goal with
         | |- context [if Py.any_in ?l (Py.lower text) then _ else _] =>
             let H := fresh "Ht" in
             destruct (Py.any_in l (Py.lower text)) eqn:H;
             [ apply (any_in_extend l pre text post) in H | ]
         end;
    repeat match goal with
           | |- context [if Py.any_in ?l (Py.lower (pre ++ text ++ post)) then _ else _] =>
               destruct (Py.any_in l (Py.lower (pre ++ text ++ post))) eqn:?
           end;
    simpl; try lia; congruence.
Qed.

(** X11.  Keywords are matched as substrings, so a keyword that contains
    a keyword of an earlier category never decides the route: a message
    with "theater" (which contains "eat") is routed to DINING or
    ROOM_SERVICE, never to ENTERTAINMENT; so is one with the emotion word
    "great"; and one with "scared" (which contains "car") is routed to
    TRANSPORTATION or a category before it. *)
Theorem substring_keywords_shadowed (text : string) :
  (contains_ignoring_case "theater" text ->
   _classify_service_type text ∈ [ROOM_SERVICE; DINING])
  /\ (contains_ignoring_case "great" text ->
      _classify_service_type text ∈ [ROOM_SERVICE; DINING])
  /\ (contains_ignoring_case "scared" text ->
      _classify_service_type text ∈ [ROOM_SERVICE; DINING; WELLNESS; TRANSPORTATION]).
Proof.
  split; [| split]; intros Hc.
  - assert (H : Py.any_in ["food"; "dining"; "restaurant"; "menu"; "dinner"; "lunch";
                           "breakfast"; "eat"] (Py.lower text) = true)
      by (apply (any_in_of_inner _ "eat" "theater"); auto; repeat constructor).
    unfold _classify_service_type. rewrite H.
    match goal with
    | |- context [if Py.any_in ?l ?t then _ else _] => destruct (Py.any_in l t)
    end; repeat constructor.
  - assert (H : Py.any_in ["food"; "dining"; "restaurant"; "menu"; "dinner"; "lunch";
                           "breakfast"; "eat"] (Py.lower text) = true)
      by (apply (any_in_of_inner _ "eat" "great"); auto; repeat constructor).
    unfold _classify_service_type. rewrite H.
    match goal with
    | |- context [if Py.any_in ?l ?t then _ else _] => destruct (Py.any_in l t)
    end; repeat constructor.
  - assert (H : Py.any_in ["transport"; "taxi"; "uber"; "airport"; "shuttle"; "car";
                           "ride"] (Py.lower text) = true)
      by (apply (any_in_of_inner _ "car" "scared"); auto; repeat constructor).
    unfold _classify_service_type. rewrite H.
    repeat match goal with
           | |- context [if Py.any_in ?l ?t then _ else _] => destruct (Py.any_in l t)
           end; cbn; repeat constructor.
Qed.

Lemma substring_keywords_shadowed_witness :
  _classify_service_type "Any THEATER shows tonight?" ∈ [ROOM_SERVICE; DINING].
Proof.
  apply (proj1 (substring_keywords_shadowed "Any THEATER shows tonight?")).
  exists "Any ", "THEATER", " shows tonight?". split; reflexivity.
Defined.

(** ** Further properties of the emotion classifier *)

Section ClassifierMore.

(** [max] returns the first of the items whose key is largest. *)
Lemma max_by_key_first {A} (best : A * nat) (items : list (A * nat)) :
  exists before after,
    best :: items = (before ++ Py.max_by_key best items :: after)%list
    /\ (forall x, x ∈ before -> (snd x < snd (Py.max_by_key best items))%nat)
    /\ (forall x, x ∈ after -> (snd x <= snd (Py.max_by_key best items))%nat).
Proof.
  revert best. induction items as [|item items IH]; intros best.
  - exists [], []. simpl. split; [reflexivity |].
    split; intros x Hx; inversion Hx.
  - simpl. destruct (Nat.ltb_spec (snd best) (snd item)) as [Hlt | Hge].
    + destruct (IH item) as [before [after [Heq [Hb Ha]]]].
      exists (best :: before), after. split; [simpl; now rewrite Heq |].
      split; [| exact Ha].
      intros x Hx. apply elem_of_cons in Hx as [-> | Hx]; [| now apply Hb].
      pose proof (max_by_key_bound item items) as [H1 _]. simpl in *. lia.
    + destruct (IH best) as [before [after [Heq [Hb Ha]]]].
      destruct before as [|b before]; simpl in Heq.
      * injection Heq as Hbest Hitems.
        exists [], (item :: items). rewrite <- Hbest. split; [reflexivity |].
        split; [intros x Hx; inversion Hx |].
        intros x Hx. apply elem_of_cons in Hx as [-> | Hx]; [exact Hge |].
        pose proof (max_by_key_bound best items) as [_ H2].
        rewrite <- Hbest in H2. now apply H2.
      * injection Heq as <- Hitems.
        exists (best :: item :: before), after.
        split; [simpl; do 2 f_equal; exact Hitems |]. split; [| exact Ha].
        assert (Hbest : (snd best < snd (Py.max_by_key best items))%nat)
          by (apply Hb; constructor).
        intros x Hx. apply elem_of_cons in Hx as [-> | Hx]; [exact Hbest |].
        apply elem_of_cons in Hx as [-> | Hx]; [simpl in *; lia |].
        apply Hb. now constructor.
Qed.

Lemma emotion_scores_of_app (t1 t2 : list (EmotionType * list string))
    (text_lower : string) :
  emotion_scores_of (t1 ++ t2) text_lower
  = (emotion_scores_of t1 text_lower ++ emotion_scores_of t2 text_lower)%list.
Proof.
  induction t1 as [|[e ks] t1 IH]; simpl; [reflexivity |].
  destruct (0 <? keyword_score ks text_lower)%nat; simpl; now rewrite IH.
Qed.

Lemma emotion_scores_of_key (table : list (EmotionType * list string))
    (text_lower : string) (e : EmotionType) :
  e ∈ map fst (emotion_scores_of table text_lower) -> e ∈ map fst table.
Proof.
  intros H. apply list_elem_of_fmap in H as [[e' s] [-> Hin]].
  apply emotion_scores_of_elem in Hin as [ks [Hks _]].
  apply list_elem_of_fmap. exists (e', ks). auto.
Qed.

Lemma emotion_scores_of_nodup (table : list (EmotionType * list string))
    (text_lower : string) :
  NoDup (map fst table) -> NoDup (map fst (emotion_scores_of table text_lower)).
Proof.
  induction table as [|[e ks] table IH]; simpl; intros Hnd; [constructor |].
  apply NoDup_cons in Hnd as [Hnotin Hnd].
  destruct (0 <? keyword_score ks text_lower)%nat; simpl; [| now apply IH].
  apply NoDup_cons. split; [| now apply IH].
  intros H. apply Hnotin. now apply emotion_scores_of_key in H.
Qed.

(** In a list without repeated keys, an item is found at one place only. *)
Lemma split_at_key {A B} (l1 l2 l1' l2' : list (A * B)) (x x' : A * B) :
  (l1 ++ x :: l2)%list = (l1' ++ x' :: l2')%list -> fst x = fst x' ->
  fst x ∉ map fst l1 -> fst x ∉ map fst l1' ->
  l1 = l1' /\ x = x' /\ l2 = l2'.
Proof.
  revert l1'. induction l1 as [|y l1 IH]; intros l1' Heq Hk Hn1 Hn1'.
  - destruct l1' as [|y' l1']; simpl in Heq.
    + injection Heq as -> ->. auto.
    + injection Heq as -> _. exfalso. apply Hn1'. simpl. constructor.
  - destruct l1' as [|y' l1']; simpl in Heq.
    + injection Heq as -> _. exfalso. apply Hn1. simpl. rewrite Hk. constructor.
    + injection Heq as -> Heq.
      destruct (IH l1' Heq Hk) as [-> [-> ->]]; auto.
      * intros H. apply Hn1. simpl. now constructor.
      * intros H. apply Hn1'. simpl. now constructor.
Qed.

Lemma emotion_keywords_keys_nodup : NoDup (map fst emotion_keywords).
Proof.
  apply (bool_decide_unpack (NoDup (map fst emotion_keywords))).
  vm_compute. exact I.
Qed.

Lemma not_in_keys_of_split {A B} (l1 l2 : list (A * B)) (x : A * B) :
  NoDup (map fst (l1 ++ x :: l2)) ->
  (fst x ∉ map fst l1) /\ (fst x ∉ map fst l2).
Proof.
  rewrite map_app. simpl. intros Hnd.
  apply NoDup_app in Hnd as [_ [Hdis Hnd]].
  apply NoDup_cons in Hnd as [Hnotin _]. split; [| exact Hnotin].
  intros H. apply (Hdis _ H). constructor.
Qed.

Lemma keys_functional {A B} (l : list (A * B)) (k : A) (v1 v2 : B) :
  NoDup (map fst l) -> (k, v1) ∈ l -> (k, v2) ∈ l -> v1 = v2.
Proof.
  induction l as [|[k' v'] l IH]; simpl; intros Hnd H1 H2; [inversion H1 |].
  apply NoDup_cons in Hnd as [Hnotin Hnd].
  assert (Hkey : forall v, (k, v) ∈ l -> k ∈ map fst l).
  { intros v Hv. apply list_elem_of_fmap. exists (k, v). auto. }
  apply elem_of_cons in H1 as [H1 | H1], H2 as [H2 | H2].
  - congruence.
  - injection H1 as -> ->. exfalso. apply Hnotin. eauto.
  - injection H2 as -> ->. exfalso. apply Hnotin. eauto.
  - now apply IH.
Qed.

(** The detected emotion against the entries declared before and after
    it, on the scores the classifier counts. *)
Lemma detected_emotion_position (text : string) (ctx : option string) (now : string)
    (earlier later : list (EmotionType * list string)) (keywords : list string) :
  emotion_keywords
  = (earlier ++ (emotion (detect_text_emotion text ctx now), keywords) :: later)%list ->
  (0 < keyword_score keywords (Py.lower text))%nat
  /\ (forall entry, entry ∈ earlier ->
        (keyword_score (snd entry) (Py.lower text)
         < keyword_score keywords (Py.lower text))%nat)
  /\ (forall entry, entry ∈ later ->
        (keyword_score (snd entry) (Py.lower text)
         <= keyword_score keywords (Py.lower text))%nat).
Proof.
  intros Htable.
  pose proof emotion_keywords_keys_nodup as Hnd.
  pose proof (emotion_scores_of_nodup emotion_keywords (Py.lower text) Hnd) as Hnds.
  assert (Hscores : emotion_scores_of emotion_keywords (Py.lower text)
                    = emotion_scores_of
                        (earlier ++ (emotion (detect_text_emotion text ctx now), keywords)
                                 :: later) (Py.lower text))
    by (now rewrite <- Htable).
  rewrite Htable in Hnd.
  destruct (not_in_keys_of_split _ _ _ Hnd) as [Hne Hnl]. simpl in Hne, Hnl.
  revert Htable Hscores Hne Hnl. unfold detect_text_emotion.
  destruct (emotion_scores_of emotion_keywords (Py.lower text)) as [|first rest] eqn:Hs.
  - simpl. intros Htable _ _ _. exfalso.
    assert (Hin : NEUTRAL ∈ map fst emotion_keywords).
    { rewrite Htable, map_app. apply elem_of_app. right. constructor. }
    vm_compute in Hin. elem_cases Hin; discriminate.
  - destruct (max_by_key_first first rest) as [before [after [Hsplit [Hb Ha]]]].
    pose proof (max_by_key_elem first rest) as Hel.
    destruct (Py.max_by_key first rest) as [e s]. simpl.
    intros Htable Hscores Hne Hnl.
    rewrite <- Hs in Hel. apply emotion_scores_of_elem in Hel as [ks [Hks [Hsc Hpos]]].
    assert (ks = keywords) as ->.
    { apply (keys_functional emotion_keywords e);
        [apply emotion_keywords_keys_nodup | exact Hks |].
      rewrite Htable. apply elem_of_app. right. constructor. }
    rewrite emotion_scores_of_app in Hscores. simpl in Hscores.
    rewrite <- Hsc in Hscores.
    destruct (Nat.ltb_spec 0 s) as [_ | Hz]; [| lia].
    rewrite Hsplit in Hscores. rewrite Hsplit in Hnds.
    destruct (not_in_keys_of_split _ _ _ Hnds) as [Hnb _]. simpl in Hnb.
    destruct (split_at_key _ _ _ _ _ _ Hscores eq_refl Hnb) as [Hbefore [_ Hafter]].
    { simpl. intros H. apply Hne. now apply emotion_scores_of_key in H. }
    rewrite <- Hsc. split; [exact Hpos | split].
    + intros [e' ks'] Hin. simpl.
      destruct (Nat.eq_dec (keyword_score ks' (Py.lower text)) 0) as [-> | Hnz]; [exact Hpos |].
      apply (Hb (e', keyword_score ks' (Py.lower text))). rewrite Hbefore.
      apply emotion_scores_of_elem. exists ks'. repeat split; auto. lia.
    + intros [e' ks'] Hin. simpl.
      destruct (Nat.eq_dec (keyword_score ks' (Py.lower text)) 0) as [-> | Hnz]; [lia |].
      apply (Ha (e', keyword_score ks' (Py.lower text))). rewrite Hafter.
      apply emotion_scores_of_elem. exists ks'. repeat split; auto. lia.
Qed.

End ClassifierMore.

(** X12.  Ties between emotions go to the one declared first: every
    emotion listed before the detected one in [emotion_keywords] has a
    strictly smaller keyword count in the text, and every one listed after
    it has a count that is no larger.  So a text whose counts tie for JOY
    and EXCITEMENT (both list "excited") is classified JOY. *)
Theorem classifier_ties_go_to_first_declared (text : string)
    (ctx : option string) (now : string)
    (earlier later : list (EmotionType * list string)) (keywords : list string) :
  emotion_keywords
  = (earlier ++ (emotion (detect_text_emotion text ctx now), keywords) :: later)%list ->
  (forall entry, entry ∈ earlier ->
     (keyword_score (snd entry) (Py.lower text)
      < keyword_score keywords (Py.lower text))%nat)
  /\ (forall entry, entry ∈ later ->
        (keyword_score (snd entry) (Py.lower text)
         <= keyword_score keywords (Py.lower text))%nat)
  /\ (forall entry score, entry ∈ earlier ->
        distinct_matches (snd entry) text score ->
        ~ distinct_matches keywords text score).
Proof.
  intros Htable.
  destruct (detected_emotion_position text ctx now earlier later keywords Htable)
    as [_ [Hb Ha]].
  split; [exact Hb | split; [exact Ha |]].
  intros entry score Hin Hd Hd'.
  assert (He : entry ∈ emotion_keywords)
    by (rewrite Htable; apply elem_of_app; now left).
  assert (Hk : (emotion (detect_text_emotion text ctx now), keywords) ∈ emotion_keywords)
    by (rewrite Htable; apply elem_of_app; right; constructor).
  destruct (emotion_entry_score entry text He) as [Hd1 _].
  destruct (emotion_entry_score _ text Hk) as [Hd2 _]. simpl in Hd2.
  rewrite (distinct_matches_unique _ _ _ _ Hd Hd1) in Hd'.
  pose proof (distinct_matches_unique _ _ _ _ Hd' Hd2) as Heq.
  specialize (Hb entry Hin). lia.
Qed.

Lemma classifier_ties_go_to_first_declared_witness :
  (keyword_score ["sad"; "depressed"; "down"; "upset"; "disappointed"; "hurt"; "lonely"]
     (Py.lower "I am thrilled")
   < keyword_score ["excited"; "thrilled"; "pumped"; "energized"; "enthusiastic"; "eager"]
       (Py.lower "I am thrilled"))%nat.
Proof.
  apply (proj1 (classifier_ties_go_to_first_declared "I am thrilled" None "t0"
                  (take 5 emotion_keywords) []
                  ["excited"; "thrilled"; "pumped"; "energized"; "enthusiastic"; "eager"]
                  eq_refl)
           (SADNESS, ["sad"; "depressed"; "down"; "upset"; "disappointed"; "hurt"; "lonely"])).
  unfold emotion_keywords. cbn [take]. repeat constructor.
Defined.

Section TextResults.

Lemma detected_suggestions_eq (text : string) (ctx : option string) (now : string) :
  EmotionAI.suggestions (detect_text_emotion text ctx now)
  = _generate_emotion_suggestions (emotion (detect_text_emotion text ctx now))
      (intensity (detect_text_emotion text ctx now)) ctx.
Proof.
  unfold detect_text_emotion.
  destruct (emotion_scores_of emotion_keywords (Py.lower text)) as [|first rest];
    [| destruct (Py.max_by_key first rest)]; reflexivity.
Qed.

(** The score behind a text result: 0 for NEUTRAL, otherwise the count of
    the detected emotion's keywords, between 1 and 8. *)
Lemma detected_score (text : string) (ctx : option string) (now : string) :
  let r := detect_text_emotion text ctx now in
  (emotion r = NEUTRAL /\ confidence r = confidence_of_score 0
   /\ intensity r = MEDIUM)
  \/ (exists keywords,
        (emotion r, keywords) ∈ emotion_keywords
        /\ (1 <= keyword_score keywords (Py.lower text) <= 8)%nat
        /\ confidence r = confidence_of_score (keyword_score keywords (Py.lower text))
        /\ intensity r
           = (if (keyword_score keywords (Py.lower text) <? 2)%nat then MEDIUM
              else if (keyword_score keywords (Py.lower text) <? 4)%nat then HIGH
              else VERY_HIGH)).
Proof.
  intros r. destruct (detect_text_emotion_cases text ctx now) as [Hint Hcases].
  fold r in Hint, Hcases.
  destruct Hcases as [[_ [He Hc]] | [ks [Hks [Hpos [_ Hconf]]]]].
  - left. rewrite Hint, He, Hc. auto.
  - right. exists ks.
    destruct (emotion_entry_score (emotion r, ks) text Hks) as [_ Hle]. simpl in Hle.
    split; [exact Hks | split; [lia | split]].
    + rewrite Hconf. now apply confidence_of_score_code.
    + rewrite Hint, Hconf, confidence_of_score_code by exact Hle.
      now apply intensity_of_score.
Qed.

Lemma append_empty_r (s : string) : s ++ "" = s.
Proof.
  induction s as [|c s IH]; [reflexivity |]. now rewrite append_cons, IH.
Qed.

Lemma append_cancel_suffix (a suffix : string) : a ++ suffix = a -> suffix = "".
Proof.
  intros H. rewrite <- (append_empty_r a) in H at 2.
  now apply (inj (String.append a)) in H.
Qed.

(** On a text result the escalation test on the emotion is a test on
    the anger keywords. *)
Lemma anger_test_on_text (text : string) (ctx : option string) (now : string) :
  negative_emotion_test (Some (detect_text_emotion text ctx now)) = true <->
  emotion (detect_text_emotion text ctx now) = ANGER
  /\ (2 <= keyword_score ["angry"; "mad"; "furious"; "annoyed"; "irritated";
                          "frustrated"; "rage"] (Py.lower text))%nat.
Proof.
  set (r := detect_text_emotion text ctx now).
  assert (Hanger : (ANGER, ["angry"; "mad"; "furious"; "annoyed"; "irritated";
                            "frustrated"; "rage"]) ∈ emotion_keywords)
    by (unfold emotion_keywords; repeat constructor).
  rewrite negative_emotion_test_iff.
  pose proof (text_emotion_in_table text ctx now) as Hin. fold r in Hin.
  destruct (detected_score text ctx now) as [[He [_ Hi]] | [ks [Hks [Hs [_ Hi]]]]];
    fold r in He || fold r in Hks; fold r in Hi.
  - split.
    + intros [r' [Hr' [[H | H] _]]]; injection Hr' as <-; rewrite Hi in H; discriminate.
    + intros [H _]. rewrite He in H. discriminate.
  - split.
    + intros [r' [Hr' [Hint Hemo]]]. injection Hr' as <-.
      assert (He : emotion r = ANGER).
      { destruct Hemo as [He | He]; [exact He |].
        rewrite He in Hin. elem_cases Hin; discriminate. }
      split; [exact He |].
      rewrite He in Hks.
      rewrite <- (keys_functional _ _ _ _ emotion_keywords_keys_nodup Hks Hanger).
      rewrite Hi in Hint.
      destruct (Nat.ltb_spec (keyword_score ks (Py.lower text)) 2) as [Hlt | Hge];
        [destruct Hint; discriminate | exact Hge].
    + intros [He Hge]. exists r. split; [reflexivity |].
      rewrite He in Hks.
      rewrite <- (keys_functional _ _ _ _ emotion_keywords_keys_nodup Hks Hanger) in Hge.
      split; [| now left]. rewrite Hi.
      destruct (Nat.ltb_spec (keyword_score ks (Py.lower text)) 2) as [Hlt | _]; [lia |].
      destruct (keyword_score ks (Py.lower text) <? 4)%nat; auto.
Qed.

End TextResults.

(** X13.  A result classified from text never has an intensity below
    MEDIUM, and its confidence is one of 0.5, 0.6, 0.7, 0.8, 0.9.  Its
    intensity is HIGH or VERY_HIGH exactly when the detected emotion counts
    two keywords or more; so the escalation test on the emotion fires for a
    text result exactly when the emotion is ANGER with at least two of the
    anger keywords in the text: one anger keyword alone does not escalate. *)
Theorem text_escalation_needs_two_anger_keywords (text : string)
    (ctx : option string) (now : string) :
  let r := detect_text_emotion text ctx now in
  intensity r ∈ [MEDIUM; HIGH; VERY_HIGH]
  /\ confidence r ∈ [0.5; 0.6; 0.7; 0.8; 0.9]%float
  /\ (negative_emotion_test (Some r) = true <->
      emotion r = ANGER
      /\ (2 <= keyword_score ["angry"; "mad"; "furious"; "annoyed"; "irritated";
                              "frustrated"; "rage"] (Py.lower text))%nat)
  /\ (forall msg service,
        service <> EMERGENCY ->
        Py.any_in complex_keywords (Py.lower msg) = false ->
        (_requires_human_intervention msg (Some r) service = true <->
         emotion r = ANGER
         /\ (2 <= keyword_score ["angry"; "mad"; "furious"; "annoyed"; "irritated";
                                 "frustrated"; "rage"] (Py.lower text))%nat)).
Proof.
  intros r.
  pose proof (anger_test_on_text text ctx now) as Htest. fold r in Htest.
  split; [| split; [| split; [exact Htest |]]].
  - destruct (detected_score text ctx now) as [[_ [_ Hi]] | [ks [_ [_ [_ Hi]]]]];
      fold r in Hi; rewrite Hi; [repeat constructor |].
    destruct (_ <? 2)%nat; [repeat constructor |].
    destruct (_ <? 4)%nat; repeat constructor.
  - destruct (detected_score text ctx now) as [[_ [Hc _]] | [ks [_ [Hs [Hc _]]]]];
      fold r in Hc; rewrite Hc; [repeat constructor |].
    destruct Hs as [Hs1 Hs8]. revert Hs1 Hs8.
    generalize (keyword_score ks (Py.lower text)). intros s Hs1 Hs8.
    do 9 (destruct s as [|s]; [try lia; vm_compute; repeat constructor |]). lia.
  - intros msg service Hs Hkw.
    rewrite requires_human_unfold, Hkw, orb_false_r.
    rewrite (bool_decide_eq_false_2 _ Hs). simpl. exact Htest.
Qed.

Lemma text_escalation_needs_two_anger_keywords_witness :
  _requires_human_intervention "I am angry" 
    (Some (detect_text_emotion "I am angry" None "t0")) GENERAL = true
  <-> emotion (detect_text_emotion "I am angry" None "t0") = ANGER
      /\ (2 <= keyword_score ["angry"; "mad"; "furious"; "annoyed"; "irritated";
                              "frustrated"; "rage"] (Py.lower "I am angry"))%nat.
Proof.
  apply (text_escalation_needs_two_anger_keywords "I am angry" None "t0").
  - discriminate.
  - reflexivity.
Defined.

(** Settles [l = [] <-> x ∈ xs] for a literal list [l] and literal [x], [xs]. *)
Ltac empty_iff_member :=
  let H := fresh "H" in
  split;
  [ intros H; first [discriminate H | repeat constructor]
  | intros H; first [reflexivity | (elem_cases H; discriminate)] ].

(** X14.  In the response to a message, the suggestions and the proactive
    actions follow the emotion detected in the message: there are no
    suggestions exactly for FEAR and NEUTRAL and three otherwise (the
    fourth of each canned list is never returned); there are no proactive
    actions exactly for ANGER, FEAR and NEUTRAL.  A frightened guest gets
    neither. *)
Theorem response_help_follows_text_emotion (msg : string) (user : User)
    (ctx : option (gmap string string)) (now_emotion now_turn : string)
    (memory memory' : gmap Z (list ConversationTurn))
    (response : ConciergeResponse) :
  process_guest_message msg user ctx now_emotion now_turn memory
  = (inr response, memory') ->
  exists r,
    emotion_detected response = Some r
    /\ (suggestions response = [] <-> emotion r ∈ [FEAR; NEUTRAL])
    /\ (emotion r ∉ [FEAR; NEUTRAL] -> length (suggestions response) = 3%nat)
    /\ (proactive_actions response = [] <-> emotion r ∈ [ANGER; FEAR; NEUTRAL]).
Proof.
  intros Hproc.
  destruct (process_success_inv _ _ _ _ _ _ _ _ Hproc) as [_ [p [_ ->]]].
  set (c := match ctx with Some c => c !! "conversation_context" | None => None end).
  exists (detect_text_emotion msg c now_emotion).
  unfold _generate_response.
  cbn [emotion_detected ConciergeAI.suggestions proactive_actions].
  rewrite detected_suggestions_eq.
  pose proof (text_emotion_in_table msg c now_emotion) as Hin.
  split; [reflexivity |].
  unfold _generate_emotion_suggestions, _generate_proactive_actions.
  elem_cases Hin; rewrite Hin; cbn;
    (split; [empty_iff_member | split; [| empty_iff_member]]);
    intros H; first [reflexivity | exfalso; apply H; repeat constructor].
Qed.

Lemma response_help_follows_text_emotion_witness :
  exists r,
    emotion_detected
      (_generate_response "I am scared" scenario_guest FRIENDLY
         (_classify_service_type "I am scared")
         (Some (detect_text_emotion "I am scared" None "t0")) None) = Some r
    /\ emotion r = FEAR.
Proof.
  destruct (response_help_follows_text_emotion "I am scared" scenario_guest None
              "t0" "t1" ∅ _ _ eq_refl) as [r [Hr _]].
  exists r. split; [exact Hr |].
  injection Hr as <-. reflexivity.
Defined.

(** X15.  The response text carries an emotion sentence after the service
    sentence exactly when proactive actions are proposed: for every
    emotion result, the list of proactive actions is empty if and only if
    the text is just the greeting, a space and the service sentence. *)
Theorem emotion_sentence_iff_proactive_actions (msg : string)
    (p : ConciergePersonality) (service : ServiceType)
    (emotion_result : option EmotionResult) (user : User) :
  _generate_proactive_actions emotion_result service user = [] <->
  _generate_template_response msg p service emotion_result user
  = greeting_of p (first_name user) ++ " "
    ++ default general_response (service_responses service).
Proof.
  unfold _generate_template_response, _generate_proactive_actions, emotion_in.
  set (g := greeting_of p (first_name user)).
  set (b := default general_response (service_responses service)).
  assert (Hplain : g ++ " " ++ b ++ "" = g ++ " " ++ b)
    by now rewrite append_empty_r.
  assert (Hsuffix : forall suffix, suffix <> "" ->
                                   g ++ " " ++ b ++ suffix <> g ++ " " ++ b).
  { intros suffix Hne H. apply Hne.
    apply (inj (String.append g)) in H. apply (inj (String.append " ")) in H.
    now apply append_cancel_suffix in H. }
  destruct emotion_result as [r|]; [| split; [intros _; exact Hplain | reflexivity]].
  destruct (emotion r); cbn;
    (split; [ intros H; first [discriminate H | exact Hplain]
            | intros H; first [reflexivity
                              | exfalso; revert H; apply Hsuffix; discriminate] ]).
Qed.

(** ** The intensity thresholds in binary64 *)

(** Case analysis on the comparisons of exponents and mantissas in a goal. *)
Ltac cmp_cases :=
  repeat match goal with
         | |- context [(?a ?= ?b)%Z] => destruct (Z.compare_spec a b)
         | |- context [Pos.compare_cont Eq ?a ?b] =>
             change (Pos.compare_cont Eq a b) with (Pos.compare a b);
             destruct (Pos.compare_spec a b)
         end.

Section FloatOrder.

Lemma SFleb_trans (x y z : spec_float) :
  SFleb x y = true -> SFleb y z = true -> SFleb x z = true.
Proof.
  unfold SFleb, SFcompare.
  destruct x as [sx|sx| |sx mx ex], y as [sy|sy| |sy my ey], z as [sz|sz| |sz mz ez];
    repeat match goal with s : bool |- _ => destruct s end;
    try (intros; reflexivity); try (intros; discriminate);
    cmp_cases; simpl; intros; subst; try reflexivity; try discriminate; try lia.
Qed.

(** The comparison [<=] of binary64 floats is transitive. *)
Lemma float_leb_trans (x y z : float) :
  (x <=? y)%float = true -> (y <=? z)%float = true -> (x <=? z)%float = true.
Proof. rewrite !leb_spec. apply SFleb_trans. Qed.

(** Past a threshold, a confidence is past the thresholds below it. *)
Lemma thresholds_nested (c : float) :
  ((0.9 <=? c)%float = true -> (0.7 <=? c)%float = true)
  /\ ((0.7 <=? c)%float = true -> (0.5 <=? c)%float = true)
  /\ ((0.5 <=? c)%float = true -> (0.3 <=? c)%float = true).
Proof.
  repeat split; apply float_leb_trans; reflexivity.
Qed.

End FloatOrder.

(** X16.  The intensity never decreases when the confidence grows: for
    binary64 confidences c1 <= c2, the intensity of c1 is at most that of
    c2 on the scale VERY_LOW < LOW < MEDIUM < HIGH < VERY_HIGH. *)
Theorem determine_intensity_monotone (c1 c2 : float) (t1 t2 : option string) :
  (c1 <=? c2)%float = true ->
  (intensity_rank (_determine_intensity c1 t1)
   <= intensity_rank (_determine_intensity c2 t2))%nat.
Proof.
  intros Hle.
  assert (Hup : forall t : float,
             (t <=? c1)%float = true -> (t <=? c2)%float = true)
    by (intros t Ht; now apply (float_leb_trans t c1 c2)).
  destruct (thresholds_nested c2) as [H97 [H75 H53]].
  unfold _determine_intensity.
  destruct (0.9 <=? c1)%float eqn:H9; [rewrite (Hup _ H9); simpl; lia |].
  destruct (0.7 <=? c1)%float eqn:H7.
  { rewrite (Hup _ H7). destruct (0.9 <=? c2)%float; simpl; lia. }
  destruct (0.5 <=? c1)%float eqn:H5.
  { rewrite (Hup _ H5).
    destruct (0.9 <=? c2)%float; [simpl; lia |].
    destruct (0.7 <=? c2)%float; simpl; lia. }
  destruct (0.3 <=? c1)%float eqn:H3.
  { rewrite (Hup _ H3).
    destruct (0.9 <=? c2)%float; [simpl; lia |].
    destruct (0.7 <=? c2)%float; [simpl; lia |].
    destruct (0.5 <=? c2)%float; simpl; lia. }
  simpl. lia.
Qed.

Lemma determine_intensity_monotone_witness :
  (intensity_rank (_determine_intensity 0.65 None)
   <= intensity_rank (_determine_intensity 0.85 None))%nat.
Proof. apply (determine_intensity_monotone 0.65 0.85 None None). reflexivity. Defined.

(** X17.  Each intensity is one interval of confidences: VERY_HIGH from
    0.9, HIGH from 0.7 and not from 0.9, MEDIUM from 0.5 and not from 0.7,
    LOW from 0.3 and not from 0.5, VERY_LOW when not from 0.3; a confidence
    that is not a number compares with no threshold and gives VERY_LOW. *)
Theorem determine_intensity_intervals (c : float) (t : option string) :
  (_determine_intensity c t = VERY_HIGH <-> (0.9 <=? c)%float = true)
  /\ (_determine_intensity c t = HIGH <->
      (0.7 <=? c)%float = true /\ (0.9 <=? c)%float = false)
  /\ (_determine_intensity c t = MEDIUM <->
      (0.5 <=? c)%float = true /\ (0.7 <=? c)%float = false)
  /\ (_determine_intensity c t = LOW <->
      (0.3 <=? c)%float = true /\ (0.5 <=? c)%float = false)
  /\ (_determine_intensity c t = VERY_LOW <-> (0.3 <=? c)%float = false)
  /\ _determine_intensity PrimFloat.nan t = VERY_LOW.
Proof.
  destruct (thresholds_nested c) as [H97 [H75 H53]].
  unfold _determine_intensity.
  destruct (0.9 <=? c)%float eqn:H9.
  { rewrite (H97 eq_refl), (H75 (H97 eq_refl)), (H53 (H75 (H97 eq_refl))).
    repeat split; intros; destruct_and?; congruence. }
  destruct (0.7 <=? c)%float eqn:H7.
  { rewrite (H75 eq_refl), (H53 (H75 eq_refl)).
    repeat split; intros; destruct_and?; congruence. }
  destruct (0.5 <=? c)%float eqn:H5.
  { rewrite (H53 eq_refl).
    repeat split; intros; destruct_and?; congruence. }
  destruct (0.3 <=? c)%float eqn:H3;
    repeat split; intros; destruct_and?; congruence.
Qed.

(** ** The audio and vision stand-ins *)

(** X18.  Whatever is drawn, the audio detection returns one of JOY,
    NEUTRAL, STRESS, EXCITEMENT with an intensity of MEDIUM or more (its
    confidence is drawn from 0.6 up), three suggestions unless the emotion
    is NEUTRAL, and a result on which the escalation test never fires. *)
Theorem audio_emotion_range (audio_data : string) (sample_rate : Z)
    (draw : nat) (drawn_confidence : float) (now : string) :
  (draw < 4)%nat -> (0.6 <=? drawn_confidence)%float = true ->
  let r := detect_audio_emotion audio_data sample_rate draw drawn_confidence now in
  emotion r ∈ [JOY; NEUTRAL; STRESS; EXCITEMENT]
  /\ intensity r ∈ [MEDIUM; HIGH; VERY_HIGH]
  /\ (EmotionAI.suggestions r = [] <-> emotion r = NEUTRAL)
  /\ (emotion r <> NEUTRAL -> length (EmotionAI.suggestions r) = 3%nat)
  /\ negative_emotion_test (Some r) = false.
Proof.
  intros Hdraw Hconf r.
  assert (H5 : (0.5 <=? drawn_confidence)%float = true)
    by (apply (float_leb_trans 0.5 0.6); [reflexivity | exact Hconf]).
  assert (Hint : intensity r ∈ [MEDIUM; HIGH; VERY_HIGH]).
  { unfold r, detect_audio_emotion. cbn [intensity]. unfold _determine_intensity.
    rewrite H5.
    destruct (0.9 <=? drawn_confidence)%float; [repeat constructor |].
    destruct (0.7 <=? drawn_confidence)%float; repeat constructor. }
  split; [| split; [exact Hint | ]].
  - unfold r, detect_audio_emotion, Py.choice. cbn [emotion].
    do 4 (destruct draw as [|draw]; [repeat constructor |]). lia.
  - assert (Hcases : emotion r = JOY \/ emotion r = NEUTRAL \/ emotion r = STRESS
                     \/ emotion r = EXCITEMENT).
    { unfold r, detect_audio_emotion, Py.choice. cbn [emotion].
      do 4 (destruct draw as [|draw]; [tauto |]). lia. }
    assert (Hsugg : EmotionAI.suggestions r
                    = _generate_emotion_suggestions (emotion r) (intensity r) (Some "audio"))
      by reflexivity.
    rewrite Hsugg. unfold negative_emotion_test.
    split; [| split].
    + destruct Hcases as [He | [He | [He | He]]]; rewrite He; vm_compute;
        split; intros; congruence.
    + destruct Hcases as [He | [He | [He | He]]]; rewrite He; vm_compute;
        intros; congruence.
    + apply andb_false_iff. right.
      destruct Hcases as [He | [He | [He | He]]]; rewrite He; reflexivity.
Qed.

Lemma audio_emotion_range_witness :
  intensity (detect_audio_emotion "" 16000 2 0.75 "t0") ∈ [MEDIUM; HIGH; VERY_HIGH].
Proof.
  apply (audio_emotion_range "" 16000 2 0.75 "t0"); [lia | reflexivity].
Defined.

(** X19.  Whatever is drawn, the vision detection returns one of JOY,
    NEUTRAL, SADNESS, SURPRISE with intensity HIGH or VERY_HIGH (its
    confidence is drawn from 0.7 up); it has no suggestions exactly for
    NEUTRAL and SURPRISE, and the escalation test never fires on it. *)
Theorem vision_emotion_range (image_data : string)
    (draw : nat) (drawn_confidence : float) (now : string) :
  (draw < 4)%nat -> (0.7 <=? drawn_confidence)%float = true ->
  let r := detect_vision_emotion image_data draw drawn_confidence now in
  emotion r ∈ [JOY; NEUTRAL; SADNESS; SURPRISE]
  /\ intensity r ∈ [HIGH; VERY_HIGH]
  /\ (EmotionAI.suggestions r = [] <-> emotion r ∈ [NEUTRAL; SURPRISE])
  /\ negative_emotion_test (Some r) = false.
Proof.
  intros Hdraw Hconf r.
  assert (Hint : intensity r ∈ [HIGH; VERY_HIGH]).
  { unfold r, detect_vision_emotion. cbn [intensity]. unfold _determine_intensity.
    rewrite Hconf.
    destruct (0.9 <=? drawn_confidence)%float; repeat constructor. }
  split; [| split; [exact Hint | ]].
  - unfold r, detect_vision_emotion, Py.choice. cbn [emotion].
    do 4 (destruct draw as [|draw]; [repeat constructor |]). lia.
  - assert (Hcases : emotion r = JOY \/ emotion r = NEUTRAL \/ emotion r = SADNESS
                     \/ emotion r = SURPRISE).
    { unfold r, detect_vision_emotion, Py.choice. cbn [emotion].
      do 4 (destruct draw as [|draw]; [tauto |]). lia. }
    assert (Hsugg : EmotionAI.suggestions r
                    = _generate_emotion_suggestions (emotion r) (intensity r) (Some "vision"))
      by reflexivity.
    rewrite Hsugg. unfold negative_emotion_test.
    split.
    + destruct Hcases as [He | [He | [He | He]]]; rewrite He;
        unfold _generate_emotion_suggestions;
        match goal with
        | |- Py.slice_to 3 ?l = [] <-> _ =>
            let v := eval vm_compute in (Py.slice_to 3 l) in
            change (Py.slice_to 3 l) with v
        end; empty_iff_member.
    + apply andb_false_iff. right.
      destruct Hcases as [He | [He | [He | He]]]; rewrite He; reflexivity.
Qed.

Lemma vision_emotion_range_witness :
  intensity (detect_vision_emotion "" 3 0.75 "t0") ∈ [HIGH; VERY_HIGH].
Proof.
  apply (vision_emotion_range "" 3 0.75 "t0"); [lia | reflexivity].
Defined.

(** ** The chat endpoints *)

Section ChatEndpoints.

Lemma available_personalities_iff (v : string) :
  v ∈ available_personalities <-> exists p, v = ConciergePersonality_value p.
Proof.
  unfold available_personalities. rewrite list_elem_of_fmap. split.
  - intros [p [-> _]]. eauto.
  - intros [p ->]. exists p. split; [reflexivity |].
    destruct p; unfold ConciergePersonality_members; repeat constructor.
Qed.

Lemma process_known_eq (msg : string) (user : User)
    (ctx : option (gmap string string)) (now_emotion now_turn : string)
    (memory : gmap Z (list ConversationTurn)) (p : ConciergePersonality) :
  preferred_ai_personality user = ConciergePersonality_value p ->
  process_guest_message msg user ctx now_emotion now_turn memory
  = (let response :=
       _generate_response msg user p (_classify_service_type msg)
         (Some (detect_text_emotion msg
                  (match ctx with
                   | Some c => c !! "conversation_context"
                   | None => None
                   end) now_emotion)) ctx in
     (inr response,
      _update_conversation_memory (id user) msg response now_turn memory)).
Proof.
  intros Hp. unfold process_guest_message.
  now rewrite Hp, personality_of_value_member.
Qed.


(** What the text pipeline finds in the message that stands for the voice
    input, and in the one that stands for the video input. *)
Lemma voice_message_neutral_room (ctx : option string) (now : string) :
  detect_text_emotion
    "I'd like to order room service and get some recommendations for local dining."
    ctx now
  = {| emotion := NEUTRAL; intensity := MEDIUM; confidence := 0.5; context := ctx;
       EmotionAI.suggestions := []; timestamp := Some now |}
  /\ _classify_service_type
       "I'd like to order room service and get some recommendations for local dining."
     = ROOM_SERVICE.
Proof. split; reflexivity. Qed.

Lemma video_message_neutral_wellness (ctx : option string) (now : string) :
  detect_text_emotion
    "I'm looking for some relaxation activities and wellness services." ctx now
  = {| emotion := NEUTRAL; intensity := MEDIUM; confidence := 0.5; context := ctx;
       EmotionAI.suggestions := []; timestamp := Some now |}
  /\ _classify_service_type
       "I'm looking for some relaxation activities and wellness services."
     = WELLNESS.
Proof. split; reflexivity. Qed.

End ChatEndpoints.



(** X21.  For the user that [get_current_user] builds once the token is
    verified, the chat endpoint never answers with an error: for every
    message, context and token subject there is a reply, with personality
    "friendly" and a text that opens with the friendly greeting to John. *)
Theorem demo_user_chat_never_fails (user_id : Z) (msg : string)
    (context : option (gmap string string))
    (now_emotion now_turn now_reply : string)
    (memory : gmap Z (list ConversationTurn)) :
  exists reply,
    fst (chat_with_concierge msg context (Security.get_current_user user_id)
           now_emotion now_turn now_reply memory) = inr reply
    /\ reply_personality reply = "friendly"
    /\ exists rest,
         reply_message reply
         = "Hi John! I'm so happy to help you today! 😊 " ++ rest.
Proof.
  unfold chat_with_concierge.
  rewrite (process_known_eq msg (Security.get_current_user user_id) _ _ _ _
             FRIENDLY eq_refl).
  cbv zeta.
  eexists. split; [reflexivity |]. split; [reflexivity |].
  cbn [chat_reply reply_message _generate_response message].
  unfold _generate_template_response. eexists. reflexivity.
Qed.

(** X22.  The voice endpoint uses the audio only for the emotion entry of
    its reply.  For a guest with an available personality and every audio
    input and random outcome, the reply is for ROOM_SERVICE with the two
    room follow-up questions, no suggestions, no proactive actions and no
    human required, while its emotion entry is that of the audio
    detection; the turn recorded in the memory has the stand-in message
    with the emotion "neutral". *)
Theorem voice_reply_uses_audio_for_emotion_entry_only (audio_data : string)
    (context : option (gmap string string)) (current_user : User)
    (draw : nat) (drawn_confidence : float)
    (now_audio now_emotion now_turn now_reply : string)
    (memory : gmap Z (list ConversationTurn)) :
  preferred_ai_personality current_user ∈ available_personalities ->
  let outcome :=
    chat_with_concierge_voice audio_data context current_user draw drawn_confidence
      now_audio now_emotion now_turn now_reply memory in
  exists reply,
    fst outcome = inr reply
    /\ reply_service_type reply = "room_service"
    /\ reply_suggestions reply = []
    /\ reply_proactive_actions reply = []
    /\ reply_requires_human reply = false
    /\ reply_follow_up_questions reply
       = [ "Would you like me to schedule housekeeping for a specific time?";
           "Is there anything specific you'd like me to arrange for your room?" ]
    /\ reply_emotion_detected reply
       = Some (emotion_summary
                 (detect_audio_emotion audio_data 16000 draw drawn_confidence now_audio))
    /\ exists turn,
         last (history_of (id current_user) (snd outcome)) = Some turn
         /\ user_message turn
            = "I'd like to order room service and get some recommendations for local dining."
         /\ turn_emotion_detected turn = Some "neutral"
         /\ turn_service_type turn = "room_service".
Proof.
  intros Hin outcome. apply available_personalities_iff in Hin as [p Hp].
  unfold outcome, chat_with_concierge_voice. cbv zeta.
  rewrite (process_known_eq _ _ _ _ _ _ p Hp). cbv zeta.
  destruct (voice_message_neutral_room
              (default ∅ context !! "conversation_context") now_emotion) as [Hd Hc].
  cbn [default option_map] in Hd |- *.
  rewrite Hd, Hc.
  eexists. split; [reflexivity |]. cbn [fst snd].
  repeat (split; [reflexivity |]).
  eexists. split; [apply update_memory_effects |].
  repeat split; reflexivity.
Qed.

Lemma voice_reply_uses_audio_for_emotion_entry_only_witness :
  exists reply,
    fst (chat_with_concierge_voice "" None (Security.get_current_user 1) 2 0.8
           "ta" "t0" "t1" "t2" ∅) = inr reply
    /\ reply_suggestions reply = []
    /\ reply_emotion_detected reply
       = Some {| summary_emotion := "stress"; summary_intensity := "high";
                 summary_confidence := 0.8 |}.
Proof.
  destruct (voice_reply_uses_audio_for_emotion_entry_only "" None
              (Security.get_current_user 1) 2 0.8 "ta" "t0" "t1" "t2" ∅)
    as [reply [H1 [_ [H3 [_ [_ [_ [H7 _]]]]]]]].
  - apply available_personalities_iff. exists FRIENDLY. reflexivity.
  - exists reply. split; [exact H1 | split; [exact H3 |]].
    rewrite H7. reflexivity.
Defined.

(** X23.  The video endpoint likewise uses the video only for the emotion
    entry of its reply: the reply is for WELLNESS with the two wellness
    follow-up questions, no suggestions, no proactive actions and no human
    required, whatever the vision detection returned, and the recorded turn
    has the emotion "neutral". *)
Theorem video_reply_uses_video_for_emotion_entry_only (video_data : string)
    (context : option (gmap string string)) (current_user : User)
    (draw : nat) (drawn_confidence : float)
    (now_vision now_emotion now_turn now_reply : string)
    (memory : gmap Z (list ConversationTurn)) :
  preferred_ai_personality current_user ∈ available_personalities ->
  let outcome :=
    chat_with_concierge_video video_data context current_user draw drawn_confidence
      now_vision now_emotion now_turn now_reply memory in
  exists reply,
    fst outcome = inr reply
    /\ reply_service_type reply = "wellness"
    /\ reply_suggestions reply = []
    /\ reply_proactive_actions reply = []
    /\ reply_requires_human reply = false
    /\ reply_follow_up_questions reply
       = [ "What type of wellness experience are you looking for?";
           "Do you have any specific health goals or preferences?" ]
    /\ reply_emotion_detected reply
       = Some (emotion_summary
                 (detect_vision_emotion video_data draw drawn_confidence now_vision))
    /\ exists turn,
         last (history_of (id current_user) (snd outcome)) = Some turn
         /\ user_message turn
            = "I'm looking for some relaxation activities and wellness services."
         /\ turn_emotion_detected turn = Some "neutral"
         /\ turn_service_type turn = "wellness".
Proof.
  intros Hin outcome. apply available_personalities_iff in Hin as [p Hp].
  unfold outcome, chat_with_concierge_video. cbv zeta.
  rewrite (process_known_eq _ _ _ _ _ _ p Hp). cbv zeta.
  destruct (video_message_neutral_wellness
              (default ∅ context !! "conversation_context") now_emotion) as [Hd Hc].
  cbn [default option_map] in Hd |- *.
  rewrite Hd, Hc.
  eexists. split; [reflexivity |]. cbn [fst snd].
  repeat (split; [reflexivity |]).
  eexists. split; [apply update_memory_effects |].
  repeat split; reflexivity.
Qed.

Lemma video_reply_uses_video_for_emotion_entry_only_witness :
  exists reply,
    fst (chat_with_concierge_video "" None (Security.get_current_user 1) 3 0.8
           "ta" "t0" "t1" "t2" ∅) = inr reply
    /\ reply_suggestions reply = []
    /\ reply_emotion_detected reply
       = Some {| summary_emotion := "surprise"; summary_intensity := "high";
                 summary_confidence := 0.8 |}.
Proof.
  destruct (video_reply_uses_video_for_emotion_entry_only "" None
              (Security.get_current_user 1) 3 0.8 "ta" "t0" "t1" "t2" ∅)
    as [reply [H1 [_ [H3 [_ [_ [_ [H7 _]]]]]]]].
  - apply available_personalities_iff. exists FRIENDLY. reflexivity.
  - exists reply. split; [exact H1 | split; [exact H3 |]].
    rewrite H7. reflexivity.
Defined.

(** ** The listing endpoints *)

Section Listings.

Lemma lower_upper_char (c : ascii) :
  Py.lower_char (Py.upper_char c) = Py.lower_char c.
Proof. destruct c as [[] [] [] [] [] [] [] []]; reflexivity. Qed.

Lemma lower_char_idem (c : ascii) :
  Py.lower_char (Py.lower_char c) = Py.lower_char c.
Proof. destruct c as [[] [] [] [] [] [] [] []]; reflexivity. Qed.

(** Title-casing changes the case of letters only. *)
Lemma lower_title_from (previous_is_cased : bool) (s : string) :
  Py.lower (Py.title_from previous_is_cased s) = Py.lower s.
Proof.
  revert previous_is_cased. induction s as [|c s IH]; intros b; [reflexivity |].
  simpl. destruct (Py.is_cased c); simpl; rewrite IH; [| reflexivity].
  destruct b; now rewrite ?lower_char_idem, ?lower_upper_char.
Qed.

Lemma lower_title (s : string) : Py.lower (Py.title s) = Py.lower s.
Proof. apply lower_title_from. Qed.

Lemma lower_replace_underscore (s : string) :
  Py.lower (Py.replace_char "_" " " s) = Py.replace_char "_" " " (Py.lower s).
Proof.
  induction s as [|c s IH]; [reflexivity |]. simpl. rewrite IH. f_equal.
  destruct c as [[] [] [] [] [] [] [] []]; reflexivity.
Qed.

Lemma replace_underscore_undo (s : string) :
  Py.replace_char " " "_" s = s ->
  Py.replace_char " " "_" (Py.replace_char "_" " " s) = s.
Proof.
  induction s as [|c s IH]; [reflexivity |]. simpl. intros H.
  injection H as Hc Hs. rewrite (IH Hs). f_equal.
  destruct (Ascii.eqb_spec c "_") as [-> | Hne]; [reflexivity |].
  exact Hc.
Qed.

(** From a display name back to the value it was made from. *)
Lemma name_to_value (v : string) :
  Py.lower v = v -> Py.replace_char " " "_" v = v ->
  Py.replace_char " " "_" (Py.lower (Py.title (Py.replace_char "_" " " v))) = v
  /\ Py.lower (Py.title v) = v.
Proof.
  intros Hlow Hsp. split.
  - rewrite lower_title, lower_replace_underscore, Hlow.
    now apply replace_underscore_undo.
  - now rewrite lower_title.
Qed.

End Listings.

(** X24.  Every entry served by the listing endpoints has a display name
    from which its id is recovered: lower-casing the name gives the id of
    a personality or of an emotion, and lower-casing it and putting "_"
    for each space gives the id of a service type or of an intensity.  The
    ids of each list are pairwise distinct, and there are 10, 10, 12 and 5
    entries. *)
Theorem listed_names_determine_ids :
  (forall item, item ∈ get_available_personalities ->
                Py.lower (item_name item) = item_id item)
  /\ (forall item, item ∈ EmotionApi.get_available_emotions ->
                   Py.lower (item_name item) = item_id item)
  /\ (forall item, item ∈ get_available_service_types ->
                   Py.replace_char " " "_" (Py.lower (item_name item)) = item_id item)
  /\ (forall item, item ∈ EmotionApi.get_available_intensities ->
                   Py.replace_char " " "_" (Py.lower (item_name item)) = item_id item)
  /\ NoDup (map item_id get_available_personalities)
  /\ NoDup (map item_id EmotionApi.get_available_emotions)
  /\ NoDup (map item_id get_available_service_types)
  /\ NoDup (map item_id EmotionApi.get_available_intensities)
  /\ map length [ get_available_personalities; get_available_service_types;
                  EmotionApi.get_available_emotions;
                  EmotionApi.get_available_intensities ]
     = [10; 10; 12; 5]%nat.
Proof.
  split; [| split; [| split; [| split]]].
  - intros item Hin. apply list_elem_of_fmap in Hin as [p [-> _]].
    cbn [item_name item_id]. apply name_to_value; destruct p; reflexivity.
  - intros item Hin. apply list_elem_of_fmap in Hin as [e [-> _]].
    cbn [item_name item_id]. apply name_to_value; destruct e; reflexivity.
  - intros item Hin. apply list_elem_of_fmap in Hin as [st [-> _]].
    cbn [item_name item_id]. apply name_to_value; destruct st; reflexivity.
  - intros item Hin. apply list_elem_of_fmap in Hin as [i [-> _]].
    cbn [item_name item_id]. apply name_to_value; destruct i; reflexivity.
  - repeat split;
      try (match goal with
           | |- NoDup ?l => apply (bool_decide_unpack (NoDup l)); vm_compute; exact I
           end).
Qed.

Lemma listed_names_determine_ids_witness :
  Py.replace_char " " "_" (Py.lower "Room Service") = "room_service".
Proof.
  apply (proj1 (proj2 (proj2 listed_names_determine_ids))
           {| item_id := "room_service"; item_name := "Room Service";
              item_description := "Services related to room service" |}).
  unfold get_available_service_types. cbn. constructor.
Defined.

(** ** The response of the pipeline, read off the message *)



(** X26.  Whether the response asks for a human is decided by the message
    alone: it does exactly when the message is routed to EMERGENCY, or is
    classified ANGER with at least two of the anger keywords in it, or
    contains, up to case, one of the keywords complaint, refund, manager,
    supervisor, legal, medical. *)
Theorem pipeline_escalation_decided_by_message (msg : string) (user : User)
    (ctx : option (gmap string string)) (now_emotion now_turn : string)
    (memory memory' : gmap Z (list ConversationTurn))
    (response : ConciergeResponse) :
  process_guest_message msg user ctx now_emotion now_turn memory
  = (inr response, memory') ->
  (requires_human response = true <->
   _classify_service_type msg = EMERGENCY
   \/ (exists r, emotion_detected response = Some r /\ emotion r = ANGER
                 /\ (2 <= keyword_score ["angry"; "mad"; "furious"; "annoyed";
                                         "irritated"; "frustrated"; "rage"]
                                        (Py.lower msg))%nat)
   \/ keyword_match complex_keywords msg).
Proof.
  intros Hproc.
  destruct (process_success_inv _ _ _ _ _ _ _ _ Hproc) as [_ [p [_ ->]]].
  unfold _generate_response. cbn [requires_human emotion_detected].
  set (c := match ctx with Some c => c !! "conversation_context" | None => None end).
  rewrite requires_human_unfold, !orb_true_iff, bool_decide_eq_true.
  rewrite (any_in_lower_iff complex_keywords msg) by repeat constructor.
  rewrite (anger_test_on_text msg c now_emotion).
  split.
  - intros [[H | H] | H]; [now left | right; left | now right; right].
    exists (detect_text_emotion msg c now_emotion). tauto.
  - intros [H | [[r [Hr [He Hs]]] | H]]; [now left; left | | now right].
    left. right. injection Hr as <-. tauto.
Qed.

Lemma pipeline_escalation_decided_by_message_witness :
  exists response,
    fst (process_guest_message "I want a refund, get me a manager" scenario_guest
           None "t0" "t1" ∅) = inr response
    /\ requires_human response = true.
Proof.
  eexists. split; [reflexivity |].
  apply (pipeline_escalation_decided_by_message "I want a refund, get me a manager"
           scenario_guest None "t0" "t1" ∅ _ _ eq_refl).
  right. right. exists "refund". split; [repeat constructor |].
  exists "I want a ", "refund", ", get me a manager". split; reflexivity.
Defined.
